(** * etl_components.connections

    A shallow embedding of [src/etl_components/connections.py]: the SQL
    dialect descriptors, the dialect resolver [get_sql_format], and the two
    context managers [SQLiteCursor] and [PostgresCursor], together with the
    part of Python they run on (dictionary lookup, the [with] statement, the
    [re] patterns stored in the descriptors).

    Strings are byte strings ([string], one [ascii] per UTF-8 byte): a text
    is the UTF-8 encoding of a Python [str], and what depends on characters
    (the class [\w] of the patterns) decodes it.  The
    database drivers ([sqlite3], [psycopg]) are outside the repository: each
    call the wrappers make to them is recorded as an [event] in a trace, and
    whether a call raises is left to an arbitrary [Driver] oracle. *)

From Stdlib Require Import String Ascii List Arith Lia Bool.
From stdpp Require Import base option list strings gmap.

Open Scope string_scope.
Open Scope list_scope.

(** ** Module constants (lines 13-45 of the source) *)

Definition SQLITE_INSERT_FORMAT : string := "
    INSERT INTO <table> (<column1>, <column2>, ...)
    VALUES (:<column1_source>, :<column2_source>, ...)
".

Definition SQLITE_VALUES_FORMAT : string := ":(\w+)".

Definition POSTGRES_INSERT_FORMAT : string := "
    INSERT INTO <table> (<column1>, <column2>, ...)
    VALUES (%(<column1_source>)s, %(<column2_source>)s, ...)
".

Definition POSTGRES_VALUES_FORMAT : string := "%\((\w+)\)s".

Definition POSTGRES_COPY_FORMAT : string := "
    COPY <table> (<column1_source>, <column2_source>, ...)
(FROM is not necessary, this is taken care of for you 😊)
".

Definition RETRIEVE_FORMAT : string := "
    SELECT id as <table>_id, <column1> as <alias1>, <column2> FROM <table>
".

Definition COMPARE_FORMAT : string := "
    SELECT 
        <table>.<column> as <alias>,
        <table>.<column>,
        <column>,
        ...
    FROM <table>
        JOIN <other_table> ON <other_table>.<table>_id = <table>.id
        JOIN ...
    ...
".

Definition NO_COPY_FORMAT : string := "COPY not available for this cursor.".

(** ** The dialect descriptor (dataclass [SQLFormat] and its two subclasses) *)

Record SQLFormat : Type := mkSQLFormat {
  insert_format : string;
  values_pattern : string;
  copy_available : bool;
  copy_format : string;
  retrieve_format : string;
  compare_format : string
}.

(** [SQLFormat.__init__] with the two defaulted fields left out. *)
Definition SQLFormat_init (insert_format values_pattern : string)
    (copy_available : bool) (copy_format : string) : SQLFormat :=
  mkSQLFormat insert_format values_pattern copy_available copy_format
              RETRIEVE_FORMAT COMPARE_FORMAT.

Definition SQLiteFormat : SQLFormat :=
  SQLFormat_init SQLITE_INSERT_FORMAT SQLITE_VALUES_FORMAT false NO_COPY_FORMAT.

Definition PostgresFormat : SQLFormat :=
  SQLFormat_init POSTGRES_INSERT_FORMAT POSTGRES_VALUES_FORMAT true
                 POSTGRES_COPY_FORMAT.

(** ** Python values, classes and exceptions *)

(** The values that cross the module's interface: what [__exit__] returns
    and what a fetched row holds. *)
Inductive py_value : Type :=
| PyNone
| PyBool (b : bool)
| PyInt (n : Z)
| PyStr (s : string).

(** Truth value testing, as [if x:] and the [with] statement apply it. *)
Definition truthy (v : py_value) : bool :=
  match v with
  | PyNone => false
  | PyBool b => b
  | PyInt n => negb (Z.eqb n 0)
  | PyStr s => negb (String.eqb s "")
  end.

(** An exception instance: [KeyError] carries the missing key, every other
    exception is identified by its class name and message.  [Error] is an
    exception of a class that tests true, as a class does unless its
    metaclass says otherwise; [FalsyError] is one of a class that tests
    false, its metaclass defining [__bool__] or [__len__] so. *)
Inductive exn : Type :=
| KeyError (key : string)
| Error (cls msg : string)
| FalsyError (cls msg : string).

(** An exception class, by its name and its truth value. *)
Record exc_class : Type := mkExcClass {
  exc_name : string;
  exc_truth : bool
}.

(** [type(e)] *)
Definition exn_class (e : exn) : exc_class :=
  match e with
  | KeyError _ => mkExcClass "KeyError" true
  | Error cls _ => mkExcClass cls true
  | FalsyError cls _ => mkExcClass cls false
  end.

(** The test [if exception:] of [__exit__], whose first argument is the
    class of the exception or [None]: [None] is false, a class has the
    truth value its metaclass gives it. *)
Definition truthy_class (exception : option exc_class) : bool :=
  match exception with
  | Some cls => exc_truth cls
  | None => false
  end.

(** How a call ends. *)
Inductive py_result (A : Type) : Type :=
| Returns (a : A)
| Raises (e : exn).
Arguments Returns {A} a.
Arguments Raises {A} e.

(** Runtime classes of the handles [get_sql_format] may be given.  A handle
    of a subclass of a cursor class counts as that cursor class, as
    [isinstance] does. *)
Inductive py_class : Type :=
| sqlite3_Cursor
| psycopg_Cursor
| other_class (name : string).

#[global] Instance py_class_eq_dec : EqDecision py_class.
Proof. solve_decision. Defined.

(** ** The drivers *)

Inductive backend : Type := sqlite3 | psycopg.

(** What a connection turns a fetched row into: the driver's default (a
    positional tuple), this module's [_dict_row], or [psycopg.rows.dict_row]. *)
Inductive row_factory : Type :=
| default_row_factory
| module_dict_row
| psycopg_dict_row.

#[global] Instance backend_eq_dec : EqDecision backend.
Proof. solve_decision. Defined.
#[global] Instance row_factory_eq_dec : EqDecision row_factory.
Proof. solve_decision. Defined.

(** A connection object.  [conn_id] is its identity: the position in the
    trace of the call that created it. *)
Record Connection : Type := mkConnection {
  conn_id : nat;
  conn_backend : backend;
  conn_target : string;
  conn_row_factory : row_factory
}.

(** [connection.row_factory = f] *)
Definition set_row_factory (c : Connection) (f : row_factory) : Connection :=
  mkConnection (conn_id c) (conn_backend c) (conn_target c) f.

(** A cursor (or any other handle): its runtime class, the connection it is
    bound to and the row factory it took from that connection. *)
Record Cursor : Type := mkCursor {
  cursor_class : py_class;
  cursor_connection : nat;
  cursor_row_factory : row_factory
}.

(** The calls made to a driver. *)
Inductive event : Type :=
| EvConnect (b : backend) (target : string) (f : row_factory)
| EvCursor (c : nat)
| EvExecute (c : nat) (sql : string)
| EvCommit (c : nat)
| EvRollback (c : nat)
| EvClose (c : nat).

#[global] Instance event_eq_dec : EqDecision event.
Proof. solve_decision. Defined.

(** The driver's side of a call: given the call and the calls made before
    it, the exception it raises, if any. *)
Class Driver : Type := driver_fault : event -> list event -> option exn.

(** A driver on which no call fails. *)
Definition reliable_driver : Driver := fun _ _ => None.

(** A driver whose connection is lost: every rollback fails. *)
Definition lost_connection_driver : Driver := fun ev _ =>
  match ev with
  | EvRollback _ => Some (Error "OperationalError" "the connection is lost")
  | _ => None
  end.

(** ** Computations: a trace of driver calls and a result *)

Definition M (A : Type) : Type := list event -> py_result A * list event.

#[global] Instance M_ret : MRet M := fun A a tr => (Returns a, tr).

#[global] Instance M_bind : MBind M := fun A B k m tr =>
  match m tr with
  | (Returns a, tr') => k a tr'
  | (Raises e, tr') => (Raises e, tr')
  end.

Definition raise {A : Type} (e : exn) : M A := fun tr => (Raises e, tr).

Definition history : M (list event) := fun tr => (Returns tr, tr).

(** One call to the driver: it is recorded, then it returns or raises. *)
Definition driver_call {D : Driver} (ev : event) : M unit := fun tr =>
  (match driver_fault ev tr with
   | Some e => Raises e
   | None => Returns tt
   end, tr ++ [ev]).

(** [sqlite3.connect(db)] *)
Definition sqlite3_connect {D : Driver} (db : string) : M Connection :=
  tr ← history;
  driver_call (EvConnect sqlite3 db default_row_factory);;
  mret (mkConnection (length tr) sqlite3 db default_row_factory).

(** [psycopg.connect(conninfo, row_factory=f)] *)
Definition psycopg_connect {D : Driver} (conninfo : string) (f : row_factory)
    : M Connection :=
  tr ← history;
  driver_call (EvConnect psycopg conninfo f);;
  mret (mkConnection (length tr) psycopg conninfo f).

Definition cursor_class_of (b : backend) : py_class :=
  match b with
  | sqlite3 => sqlite3_Cursor
  | psycopg => psycopg_Cursor
  end.

(** The cursor [connection.cursor()] creates: of the backend's cursor class,
    bound to the connection, with the connection's row factory. *)
Definition new_cursor (c : Connection) : Cursor :=
  mkCursor (cursor_class_of (conn_backend c)) (conn_id c) (conn_row_factory c).

(** [connection.cursor()] *)
Definition Connection_cursor {D : Driver} (c : Connection) : M Cursor :=
  driver_call (EvCursor (conn_id c));;
  mret (new_cursor c).

(** [connection.commit()], [connection.rollback()], [connection.close()] *)
Definition Connection_commit {D : Driver} (c : Connection) : M unit :=
  driver_call (EvCommit (conn_id c)).
Definition Connection_rollback {D : Driver} (c : Connection) : M unit :=
  driver_call (EvRollback (conn_id c)).
Definition Connection_close {D : Driver} (c : Connection) : M unit :=
  driver_call (EvClose (conn_id c)).

(** ** The dialect resolver *)

Definition isinstance (cursor : Cursor) (cls : py_class) : bool :=
  bool_decide (cursor_class cursor = cls).

(** [get_sql_format(cursor)].  The result is an optional descriptor: the
    last line of the function returns [None]. *)
Definition get_sql_format (cursor : Cursor) : py_result (option SQLFormat) :=
  if isinstance cursor sqlite3_Cursor then Returns (Some SQLiteFormat)
  else if isinstance cursor psycopg_Cursor then Returns (Some PostgresFormat)
  else Returns None.

(** ** Rows *)

(** [dict(pairs)]: a later pair replaces an earlier one with the same key. *)
Definition dict (pairs : list (string * py_value)) : gmap string py_value :=
  foldl (fun d kv => <[kv.1 := kv.2]> d) ∅ pairs.

(** [_dict_row(cursor, row)], with [keys] the column names that
    [sqlite3.Row(cursor, row).keys()] reads off the cursor. *)
Definition _dict_row (keys : list string) (row : list py_value)
    : gmap string py_value :=
  dict (zip keys row).

Inductive fetched_row : Type :=
| RowTuple (row : list py_value)
| RowDict (d : gmap string py_value).

(** The row a cursor hands out for the raw [row] of a statement whose
    columns are [keys]. *)
Definition make_row (f : row_factory) (keys : list string)
    (row : list py_value) : fetched_row :=
  match f with
  | default_row_factory => RowTuple row
  | module_dict_row => RowDict (_dict_row keys row)
  | psycopg_dict_row => RowDict (dict (zip keys row))
  end.

(** ** Configuration *)

(** [d[key]] on the mapping that [dotenv_values] returns (a variable
    without a value is bound to [None]). *)
Definition getitem (d : gmap string (option string)) (key : string)
    : M (option string) :=
  match d !! key with
  | Some v => mret v
  | None => raise (KeyError key)
  end.

(** [{v}] inside an f-string. *)
Definition format_value (v : option string) : string :=
  match v with
  | Some s => s
  | None => "None"
  end.

(** ** The context managers *)

Module SQLiteCursor.

Record t : Type := mk { connection : Connection }.

Definition __init__ {D : Driver} (db : option string) : M t :=
  let db := match db with None => ":memory:" | Some db => db end in
  connection ← sqlite3_connect db;
  mret (mk (set_row_factory connection module_dict_row)).

Definition __enter__ {D : Driver} (self : t) : M Cursor :=
  Connection_cursor (connection self).

Definition __exit__ {D : Driver} (self : t) (exception : option exc_class)
    (message : option exn) (traceback : option unit) : M py_value :=
  if truthy_class exception then
    Connection_rollback (connection self);;
    Connection_close (connection self);;
    mret PyNone
  else
    Connection_commit (connection self);;
    Connection_close (connection self);;
    mret PyNone.

End SQLiteCursor.

Module PostgresCursor.

Record t : Type := mk { connection : Connection }.

Definition __init__ {D : Driver} (config : gmap string (option string)) : M t :=
  host ← getitem config "HOST";
  port ← getitem config "PORT";
  database ← getitem config "DB";
  user ← getitem config "USER";
  password ← getitem config "PASSWORD";
  let credentials :=
    "dbname=" +:+ format_value database +:+ " user=" +:+ format_value user
    +:+ " password=" +:+ format_value password
    +:+ " host=" +:+ format_value host +:+ " port=" +:+ format_value port in
  connection ← psycopg_connect credentials psycopg_dict_row;
  mret (mk connection).

Definition __enter__ {D : Driver} (self : t) : M Cursor :=
  Connection_cursor (connection self).

Definition __exit__ {D : Driver} (self : t) (exception : option exc_class)
    (message : option exn) (traceback : option unit) : M py_value :=
  if truthy_class exception then
    Connection_rollback (connection self);;
    Connection_close (connection self);;
    mret PyNone
  else
    Connection_commit (connection self);;
    Connection_close (connection self);;
    mret PyNone.

End PostgresCursor.

(** ** The [with] statement *)

(** The context-manager protocol, and the connection a wrapper owns. *)
Class ContextManager (W : Type) : Type := {
  cm_enter : forall {D : Driver}, W -> M Cursor;
  cm_exit : forall {D : Driver},
    W -> option exc_class -> option exn -> option unit -> M py_value;
  cm_connection : W -> Connection
}.

#[global] Instance SQLiteCursor_cm : ContextManager SQLiteCursor.t := {
  cm_enter := @SQLiteCursor.__enter__;
  cm_exit := @SQLiteCursor.__exit__;
  cm_connection := SQLiteCursor.connection
}.

#[global] Instance PostgresCursor_cm : ContextManager PostgresCursor.t := {
  cm_enter := @PostgresCursor.__enter__;
  cm_exit := @PostgresCursor.__exit__;
  cm_connection := PostgresCursor.connection
}.

(** Either wrapper. *)
Inductive wrapper : Type :=
| Embedded (self : SQLiteCursor.t)
| ClientServer (self : PostgresCursor.t).

#[global] Instance wrapper_cm : ContextManager wrapper := {
  cm_enter D self :=
    match self with
    | Embedded self => SQLiteCursor.__enter__ self
    | ClientServer self => PostgresCursor.__enter__ self
    end;
  cm_exit D self :=
    match self with
    | Embedded self => SQLiteCursor.__exit__ self
    | ClientServer self => PostgresCursor.__exit__ self
    end;
  cm_connection self :=
    match self with
    | Embedded self => SQLiteCursor.connection self
    | ClientServer self => PostgresCursor.connection self
    end
}.

(** The block of a [with] statement: the statements it executes on the
    cursor it is given, and how it ends.  A block works through the cursor;
    it does not commit, roll back or close the connection itself. *)
Definition block (A : Type) : Type := Cursor -> list string * py_result A.

Definition run_block {A : Type} (body : block A) (cursor : Cursor) : M A :=
  fun tr =>
    ((body cursor).2,
     tr ++ (EvExecute (cursor_connection cursor) <$> (body cursor).1)).

(** [try: m], handing back how [m] ended instead of propagating it. *)
Definition attempt {A : Type} (m : M A) : M (py_result A) :=
  fun tr => (Returns (m tr).1, (m tr).2).

(** What happens once the block has ended with [r]: [__exit__] is called
    with the exception, if any.  An exception raised by [__exit__] replaces
    it, a true result of [__exit__] suppresses it (the statement then
    completes without a value), anything else lets it propagate. *)
Definition leave {D : Driver} `{ContextManager W} {A : Type} (self : W)
    (r : py_result A) : M (option A) :=
  match r with
  | Returns a =>
      cm_exit self None None None;;
      mret (Some a)
  | Raises e =>
      suppress ← cm_exit self (Some (exn_class e)) (Some e) (Some tt);
      if truthy suppress then mret None else raise e
  end.

(** [with self as cursor: body] *)
Definition with_ {D : Driver} `{ContextManager W} {A : Type} (self : W)
    (body : block A) : M (option A) :=
  cursor ← cm_enter self;
  r ← attempt (run_block body cursor);
  leave self r.

(** [with ctor as cursor: body], [ctor] being the call of a wrapper class. *)
Definition with_new {D : Driver} `{ContextManager W} {A : Type} (ctor : M W)
    (body : block A) : M (option A) :=
  self ← ctor;
  with_ self body.

(** The events a computation added to the trace [before] it. *)
Definition events_since (before after : list event) : list event :=
  drop (length before) after.

(** Number of times a call was made. *)
Definition issued (ev : event) (tr : list event) : nat :=
  length (filter (fun x => x = ev) tr).

(** Position of the first occurrence of a call. *)
Fixpoint position (ev : event) (tr : list event) : option nat :=
  match tr with
  | [] => None
  | x :: tr' => if decide (x = ev) then Some 0 else S <$> position ev tr'
  end.

(** Both calls were issued, the first [a] before the first [b]. *)
Definition precedes (a b : event) (tr : list event) : bool :=
  match position a tr, position b tr with
  | Some i, Some j => Nat.ltb i j
  | _, _ => false
  end.

(** ** The [re] patterns stored in the descriptors

    The fragment of Python's [re] syntax that [SQLITE_VALUES_FORMAT] and
    [POSTGRES_VALUES_FORMAT] are written in: literal characters, escaped
    punctuation, the class [\w], capturing groups and the greedy [+].
    Matching is by backtracking, first alternative first, as [re] does.

    The patterns are [str] patterns, so [\w] is the Unicode one: a
    character [c] with [c.isalnum()], or the underscore.  A text is the
    UTF-8 encoding of a [str], and [\w] takes one encoded character. *)

(** [str.isalnum] above the ASCII range.  It is a table of the Unicode
    character database, which is Python's and not the repository's: the
    development holds for any such table. *)
Class UnicodeData : Type := unicode_isalnum : N -> bool.

(** The part of the table for the Latin-1 letters, [U+00C0] to [U+00FF]
    without the signs [U+00D7] and [U+00F7]. *)
Definition latin1_letters : UnicodeData := fun cp =>
  (N.leb 192 cp && N.leb cp 255 && negb (N.eqb cp 215) && negb (N.eqb cp 247))%N.

(** The payload of a UTF-8 continuation byte [10xxxxxx]. *)
Definition continuation_byte (b : ascii) : option N :=
  let n := N_of_ascii b in
  if (N.leb 128 n && N.ltb n 192)%bool then Some (n - 128)%N else None.

(** The first character of a text, as a code point, and the rest of the
    text.  Only the encodings [str.encode] produces are read: the shortest
    one of each code point, no surrogates, nothing above [U+10FFFF]. *)
Definition decode_char (s : string) : option (N * string) :=
  match s with
  | EmptyString => None
  | String b0 s1 =>
    let n0 := N_of_ascii b0 in
    if N.ltb n0 128 then Some (n0, s1)
    else if N.ltb n0 194 then None
    else if N.ltb n0 224 then
      match s1 with
      | String b1 s2 =>
        match continuation_byte b1 with
        | Some c1 => Some ((n0 - 192) * 64 + c1, s2)%N
        | None => None
        end
      | EmptyString => None
      end
    else if N.ltb n0 240 then
      match s1 with
      | String b1 (String b2 s3) =>
        match continuation_byte b1, continuation_byte b2 with
        | Some c1, Some c2 =>
          let cp := ((n0 - 224) * 4096 + c1 * 64 + c2)%N in
          if (N.leb 2048 cp && negb (N.leb 55296 cp && N.leb cp 57343))%bool
          then Some (cp, s3) else None
        | _, _ => None
        end
      | _ => None
      end
    else if N.ltb n0 245 then
      match s1 with
      | String b1 (String b2 (String b3 s4)) =>
        match continuation_byte b1, continuation_byte b2,
              continuation_byte b3 with
        | Some c1, Some c2, Some c3 =>
          let cp := ((n0 - 240) * 262144 + c1 * 4096 + c2 * 64 + c3)%N in
          if (N.leb 65536 cp && N.leb cp 1114111)%bool
          then Some (cp, s4) else None
        | _, _, _ => None
        end
      | _ => None
      end
    else None
  end.

(** [\w] on a code point: a letter, a digit or the underscore in the ASCII
    range, an alphanumeric character above it. *)
Definition is_word_char {U : UnicodeData} (cp : N) : bool :=
  if N.ltb cp 128 then
    ((N.leb 48 cp && N.leb cp 57) || (N.leb 65 cp && N.leb cp 90)
     || (N.leb 97 cp && N.leb cp 122) || N.eqb cp 95)%bool
  else unicode_isalnum cp.

(** [\w] at the start of a text: the rest of the text when its first
    character is a word character. *)
Definition match_word_char {U : UnicodeData} (s : string) : option string :=
  match decode_char s with
  | Some (cp, s') => if is_word_char cp then Some s' else None
  | None => None
  end.

Inductive regex : Type :=
| Eps
| Chr (c : ascii)
| WordChar
| Cat (r1 r2 : regex)
| Plus (r : regex)
| Group (n : nat) (r : regex).

(** Characters with a meaning of their own in a pattern. *)
Definition is_meta (c : ascii) : bool :=
  existsb (Ascii.eqb c)
    ["."; "^"; "$"; "*"; "+"; "?"; "{"; "}"; "["; "]"; "\"; "|"; "("; ")"]%char.

(** [\c]: the class [\w], or an escaped punctuation character standing for
    itself.  Other escapes are outside the fragment. *)
Definition escape (c : ascii) : option regex :=
  if Ascii.eqb c "w" then Some WordChar
  else if is_meta c then Some (Chr c)
  else None.

(** Parses a sequence up to the end of the pattern or an unmatched [)].
    [g] counts the groups opened so far: groups are numbered by their
    opening parenthesis.  [fuel] bounds the depth of the recursion, each
    call of which is on a shorter pattern. *)
Fixpoint parse_seq (fuel : nat) (p : string) (g : nat)
    : option (regex * string * nat) :=
  match fuel with
  | 0 => None
  | S fuel' =>
    match p with
    | EmptyString => Some (Eps, p, g)
    | String c p' =>
      if Ascii.eqb c ")" then Some (Eps, p, g) else
      let atom :=
        if Ascii.eqb c "(" then
          match parse_seq fuel' p' (S g) with
          | Some (r, String c' q, g') =>
              if Ascii.eqb c' ")" then Some (Group (S g) r, q, g') else None
          | _ => None
          end
        else if Ascii.eqb c "\" then
          match p' with
          | String e q => (fun r => (r, q, g)) <$> escape e
          | EmptyString => None
          end
        else if is_meta c then None
        else Some (Chr c, p', g) in
      match atom with
      | None => None
      | Some (a, q, g') =>
        let '(a', q') :=
          match q with
          | String c' q1 => if Ascii.eqb c' "+" then (Plus a, q1) else (a, q)
          | EmptyString => (a, q)
          end in
        match parse_seq fuel' q' g' with
        | Some (r, q'', g'') => Some (Cat a' r, q'', g'')
        | None => None
        end
      end
    end
  end.

(** [re.compile(pattern)]: the expression and its number of groups, or
    [None] when the pattern is outside the fragment. *)
Definition re_compile (pattern : string) : option (regex * nat) :=
  match parse_seq (S (String.length pattern)) pattern 0 with
  | Some (r, EmptyString, n) => Some (r, n)
  | _ => None
  end.

(** Captured text by group number, most recent first. *)
Definition captures : Type := list (nat * string).

Definition capture (n : nat) (cs : captures) : option string :=
  snd <$> List.find (fun c => Nat.eqb (fst c) n) cs.

(** A matcher consumes a prefix of the input and hands the rest, with the
    captures so far, to what follows in the pattern; [None] makes it try
    its next alternative. *)
Definition matcher : Type :=
  string -> captures -> (string -> captures -> option (string * captures))
  -> option (string * captures).

(** Greedy repetition, one or more times: after an iteration that consumed
    something, another one is tried before going on with the pattern. *)
Fixpoint plus_loop (m : matcher) (fuel : nat) : matcher :=
  fun s cs k =>
    m s cs (fun s' cs' =>
      match fuel with
      | S fuel' =>
          if Nat.ltb (String.length s') (String.length s) then
            match plus_loop m fuel' s' cs' k with
            | Some x => Some x
            | None => k s' cs'
            end
          else k s' cs'
      | 0 => k s' cs'
      end).

Fixpoint regex_matcher {U : UnicodeData} (r : regex) : matcher :=
  match r with
  | Eps => fun s cs k => k s cs
  | Chr c => fun s cs k =>
      match s with
      | String c' s' => if Ascii.eqb c' c then k s' cs else None
      | EmptyString => None
      end
  | WordChar => fun s cs k =>
      match match_word_char s with
      | Some s' => k s' cs
      | None => None
      end
  | Cat r1 r2 => fun s cs k =>
      regex_matcher r1 s cs (fun s' cs' => regex_matcher r2 s' cs' k)
  | Plus r => fun s cs k =>
      plus_loop (regex_matcher r) (String.length s) s cs k
  | Group n r => fun s cs k =>
      regex_matcher r s cs (fun s' cs' =>
        k s' ((n, substring 0 (String.length s - String.length s') s) :: cs'))
  end.

(** A match object: [m.group(0)] and [m.groups()]. *)
Record Match : Type := mkMatch {
  group0 : string;
  groups : list (option string)
}.

(** [re.match(pattern, s)]: a match anchored at the start of [s].  The outer
    [None] says that the pattern is outside the fragment. *)
Definition re_match {U : UnicodeData} (pattern s : string)
    : option (option Match) :=
  match re_compile pattern with
  | None => None
  | Some (r, n) =>
    Some (match regex_matcher r s [] (fun s' cs => Some (s', cs)) with
          | None => None
          | Some (s', cs) =>
              Some (mkMatch (substring 0 (String.length s - String.length s') s)
                            ((fun i => capture i cs) <$> seq 1 n))
          end)
  end.

(** [needle in haystack] *)
Fixpoint contains (needle haystack : string) : bool :=
  String.prefix needle haystack
  || match haystack with
     | String _ h => contains needle h
     | EmptyString => false
     end.

(** ** Vocabulary of the properties *)

(** The variables [PostgresCursor] reads from the configuration. *)
Definition required_keys : list string :=
  ["HOST"; "PORT"; "DB"; "USER"; "PASSWORD"].

(** [first] then [second], each issued exactly once. *)
Definition once_each_in_order (first second : event) (tr : list event) : Prop :=
  issued first tr = 1 /\ issued second tr = 1 /\ precedes first second tr = true.

Definition is_connect (ev : event) : bool :=
  match ev with
  | EvConnect _ _ _ => true
  | _ => false
  end.

(** The connection attempts in a trace. *)
Definition connects (tr : list event) : list event := List.filter is_connect tr.

(** The text [s] is made of word characters, at most [fuel] of them. *)
Fixpoint word_upto {U : UnicodeData} (fuel : nat) (s : string) : bool :=
  match s with
  | EmptyString => true
  | String _ _ =>
    match fuel with
    | 0 => false
    | S fuel' =>
      match match_word_char s with
      | Some s' => word_upto fuel' s'
      | None => false
      end
    end
  end.

(** Every character of [s] is a word character. *)
Definition word {U : UnicodeData} (s : string) : bool :=
  word_upto (String.length s) s.

(** [s] does not go on with a word character. *)
Definition word_ends {U : UnicodeData} (s : string) : bool :=
  match match_word_char s with
  | Some _ => false
  | None => true
  end.

(** ** Vocabulary of the further properties *)

(** The first variable, in the order [PostgresCursor.__init__] reads them,
    that the configuration does not define. *)
Definition first_missing (config : gmap string (option string))
    : option string :=
  List.find (fun key => bool_decide (config !! key = None)) required_keys.

(** * Properties *)

(** ** The model on concrete inputs *)

Example template_lengths :
  String.length SQLITE_INSERT_FORMAT = 108
  /\ String.length POSTGRES_INSERT_FORMAT = 114
  /\ String.length RETRIEVE_FORMAT = 76
  /\ String.length COMPARE_FORMAT = 216
  /\ String.length NO_COPY_FORMAT = 35.
Proof. repeat split. Qed.

Example dict_row_by_column_name :
  _dict_row ["id"; "name"] [PyInt 7; PyStr "ada"]
  = <["name" := PyStr "ada"]> (<["id" := PyInt 7]> ∅).
Proof. reflexivity. Qed.

Example dict_row_duplicate_column :
  _dict_row ["a"; "b"; "a"] [PyInt 1; PyInt 2; PyInt 3] !! "a" = Some (PyInt 3).
Proof. reflexivity. Qed.

Example re_match_backtracks :
  re_match (U := latin1_letters) "(a+)(a)" "aaa"
  = Some (Some (mkMatch "aaa" [Some "aa"; Some "a"])).
Proof. reflexivity. Qed.

Example re_match_nested_groups :
  re_match (U := latin1_letters) "((a)(b))+" "abab"
  = Some (Some (mkMatch "abab" [Some "ab"; Some "a"; Some "b"])).
Proof. reflexivity. Qed.

Example re_match_template_marker :
  re_match (U := latin1_letters) SQLITE_VALUES_FORMAT ":<column1_source>"
  = Some None.
Proof. reflexivity. Qed.

Example decode_two_bytes : decode_char "é!" = Some (233%N, "!").
Proof. reflexivity. Qed.

Example decode_four_bytes : decode_char "😊" = Some (128522%N, "").
Proof. reflexivity. Qed.

Example decode_overlong : decode_char (String "192" (String "128" "")) = None.
Proof. reflexivity. Qed.

Example re_match_accented_word :
  re_match (U := latin1_letters) SQLITE_VALUES_FORMAT ":café, :b"
  = Some (Some (mkMatch ":café" [Some "café"])).
Proof. reflexivity. Qed.

Example re_match_accented_marker :
  re_match (U := latin1_letters) POSTGRES_VALUES_FORMAT "%(naïve)s"
  = Some (Some (mkMatch "%(naïve)s" [Some "naïve"])).
Proof. reflexivity. Qed.

Example re_match_sign_is_no_word :
  re_match (U := latin1_letters) SQLITE_VALUES_FORMAT ":a×b"
  = Some (Some (mkMatch ":a" [Some "a"])).
Proof. reflexivity. Qed.

Example scope_commits :
  with_new (D := reliable_driver)
    (SQLiteCursor.__init__ (D := reliable_driver) (Some "etl.db"))
    (fun _ => (["INSERT INTO t VALUES (1)"; "SELECT * FROM t"], Returns 2)) []
  = (Returns (Some 2),
     [EvConnect sqlite3 "etl.db" default_row_factory; EvCursor 0;
      EvExecute 0 "INSERT INTO t VALUES (1)"; EvExecute 0 "SELECT * FROM t";
      EvCommit 0; EvClose 0]).
Proof. reflexivity. Qed.

(** When the rollback itself raises, the connection is not closed and the
    caller sees the exception of the rollback. *)
Example scope_on_lost_connection :
  with_ (D := lost_connection_driver)
    (ClientServer
       (PostgresCursor.mk (mkConnection 0 psycopg "dbname=etl" psycopg_dict_row)))
    (fun _ => (["SELECT 1"], Raises (A := unit) (Error "ValueError" "bad row")))
    [EvConnect psycopg "dbname=etl" psycopg_dict_row]
  = (Raises (Error "OperationalError" "the connection is lost"),
     [EvConnect psycopg "dbname=etl" psycopg_dict_row; EvCursor 0;
      EvExecute 0 "SELECT 1"; EvRollback 0]).
Proof. reflexivity. Qed.

(** ** The dialect resolver *)

(** C6: for a handle of class [sqlite3.Cursor] the resolver returns the
    SQLite descriptor, whose [copy_available] is false and whose insert
    markers are written [:name]; for a handle of class [psycopg.Cursor] it
    returns the Postgres descriptor, whose [copy_available] is true and
    whose insert markers are written [%(name)s].  The marker syntax is read
    off both the insert template and the extraction pattern. *)
Theorem get_sql_format_descriptors :
  forall (U : UnicodeData) (c : nat) (f : row_factory),
    (get_sql_format (mkCursor sqlite3_Cursor c f) = Returns (Some SQLiteFormat)
     /\ copy_available SQLiteFormat = false
     /\ values_pattern SQLiteFormat = ":(\w+)"
     /\ contains "VALUES (:<column1_source>, :<column2_source>, ...)"
                 (insert_format SQLiteFormat) = true
     /\ re_match (values_pattern SQLiteFormat) ":name"
        = Some (Some (mkMatch ":name" [Some "name"])))
    /\
    (get_sql_format (mkCursor psycopg_Cursor c f) = Returns (Some PostgresFormat)
     /\ copy_available PostgresFormat = true
     /\ values_pattern PostgresFormat = "%\((\w+)\)s"
     /\ contains "VALUES (%(<column1_source>)s, %(<column2_source>)s, ...)"
                 (insert_format PostgresFormat) = true
     /\ re_match (values_pattern PostgresFormat) "%(name)s"
        = Some (Some (mkMatch "%(name)s" [Some "name"]))).
Proof.
  intros U c f. split; repeat split; vm_compute; reflexivity.
Qed.

(** C3, as the code has it: for a handle that is neither an [sqlite3.Cursor]
    nor a [psycopg.Cursor] the resolver returns [None]; it raises nothing. *)
Theorem get_sql_format_other_returns_None :
  forall cursor : Cursor,
    cursor_class cursor <> sqlite3_Cursor ->
    cursor_class cursor <> psycopg_Cursor ->
    get_sql_format cursor = Returns None.
Proof.
  intros cursor Hs Hp. unfold get_sql_format, isinstance.
  rewrite !bool_decide_eq_false_2 by assumption. reflexivity.
Qed.

Lemma get_sql_format_other_returns_None_witness :
  get_sql_format (mkCursor (other_class "AsyncCursor") 0 psycopg_dict_row)
  = Returns None.
Proof.
  apply get_sql_format_other_returns_None; simpl; discriminate.
Defined.

(** C3 as stated fails: a handle of another class, here one of class
    [AsyncCursor], is answered with [None] and not with an error. *)
Lemma get_sql_format_other_raises_refuted :
  let cursor := mkCursor (other_class "AsyncCursor") 0 psycopg_dict_row in
  cursor_class cursor <> sqlite3_Cursor
  /\ cursor_class cursor <> psycopg_Cursor
  /\ ~ (exists e : exn, get_sql_format cursor = Raises e).
Proof.
  simpl. repeat split; try discriminate.
  intros [e He]. vm_compute in He. discriminate.
Qed.

(** C9: in every descriptor the resolver returns, [copy_available] is true
    exactly when [copy_format] is not the sentinel [NO_COPY_FORMAT]. *)
Theorem copy_available_iff_not_sentinel :
  forall (cursor : Cursor) (d : SQLFormat),
    get_sql_format cursor = Returns (Some d) ->
    (copy_available d = true <-> copy_format d <> NO_COPY_FORMAT).
Proof.
  intros cursor d. unfold get_sql_format.
  destruct (isinstance cursor sqlite3_Cursor).
  - intros [= <-]. simpl. split; [discriminate | intros H; now contradict H].
  - destruct (isinstance cursor psycopg_Cursor); intros [= <-].
    simpl. split; [intros _; discriminate | reflexivity].
Qed.

Lemma copy_available_iff_not_sentinel_witness :
  (copy_available PostgresFormat = true
   <-> copy_format PostgresFormat <> NO_COPY_FORMAT)
  /\ (copy_available SQLiteFormat = true
      <-> copy_format SQLiteFormat <> NO_COPY_FORMAT).
Proof.
  split.
  - apply (copy_available_iff_not_sentinel
             (mkCursor psycopg_Cursor 0 psycopg_dict_row)).
    reflexivity.
  - apply (copy_available_iff_not_sentinel
             (mkCursor sqlite3_Cursor 0 module_dict_row)).
    reflexivity.
Defined.

(** ** Construction of the wrappers *)

(** C5: when the configuration lacks one of [HOST], [PORT], [DB], [USER],
    [PASSWORD], constructing a [PostgresCursor] raises [KeyError] for a
    missing required key, and no call has been made to the driver by then:
    the trace is the one construction started with. *)
Theorem PostgresCursor_init_missing_key :
  forall (D : Driver) (config : gmap string (option string))
         (tr : list event),
    (exists key, In key required_keys /\ config !! key = None) ->
    exists key,
      In key required_keys /\ config !! key = None
      /\ PostgresCursor.__init__ config tr = (Raises (KeyError key), tr).
Proof.
  intros D config tr [key [Hin Hnone]].
  unfold PostgresCursor.__init__, getitem, required_keys in *.
  destruct (config !! "HOST") as [host|] eqn:Hhost;
    [|exists "HOST"; simpl; auto].
  destruct (config !! "PORT") as [port|] eqn:Hport;
    [|exists "PORT"; simpl; auto].
  destruct (config !! "DB") as [database|] eqn:Hdb;
    [|exists "DB"; simpl; auto 6].
  destruct (config !! "USER") as [user|] eqn:Huser;
    [|exists "USER"; simpl; auto 7].
  destruct (config !! "PASSWORD") as [password|] eqn:Hpassword;
    [|exists "PASSWORD"; simpl; auto 8].
  exfalso. simpl in Hin.
  destruct Hin as [<-|[<-|[<-|[<-|[<-|[]]]]]]; congruence.
Qed.

Lemma PostgresCursor_init_missing_key_witness :
  exists key,
    In key required_keys
    /\ (<["HOST" := Some "db.local"]> (<["PORT" := Some "5432"]> ∅)
         : gmap string (option string)) !! key = None
    /\ PostgresCursor.__init__ (D := reliable_driver)
         (<["HOST" := Some "db.local"]> (<["PORT" := Some "5432"]> ∅)) []
       = (Raises (KeyError key), []).
Proof.
  apply (PostgresCursor_init_missing_key reliable_driver).
  exists "PASSWORD". split; [simpl; auto 8 | reflexivity].
Defined.

(** C10: constructing a [SQLiteCursor] without a path is the same as
    constructing it with the path [":memory:"]: the same call is made to the
    driver, the same wrapper results, and every scope run on it goes the
    same way. *)
Theorem SQLiteCursor_init_default_path :
  forall (D : Driver) (tr : list event),
    SQLiteCursor.__init__ None tr = SQLiteCursor.__init__ (Some ":memory:") tr
    /\ forall (A : Type) (body : block A),
         with_new (SQLiteCursor.__init__ None) body tr
         = with_new (SQLiteCursor.__init__ (Some ":memory:")) body tr.
Proof.
  intros D tr. split; [reflexivity | intros A body; reflexivity].
Qed.

(** ** Scopes *)

Lemma events_since_app (tr new : list event) : events_since tr (tr ++ new) = new.
Proof. unfold events_since. apply drop_app_length. Qed.

Lemma issued_app (ev : event) (l1 l2 : list event) :
  issued ev (l1 ++ l2) = issued ev l1 + issued ev l2.
Proof. unfold issued. rewrite filter_app, length_app. reflexivity. Qed.

Lemma issued_executes (ev : event) (c : nat) (stmts : list string) :
  (forall sql, ev <> EvExecute c sql) ->
  issued ev (EvExecute c <$> stmts) = 0.
Proof.
  intros Hev. unfold issued.
  induction stmts as [|sql stmts IH]; [reflexivity|].
  rewrite fmap_cons, filter_cons_False; [exact IH|].
  intros Heq. apply (Hev sql). symmetry. exact Heq.
Qed.

Lemma position_executes (ev : event) (c : nat) (stmts : list string)
    (tail : list event) :
  (forall sql, ev <> EvExecute c sql) ->
  position ev ((EvExecute c <$> stmts) ++ tail)
  = Nat.add (length stmts) <$> position ev tail.
Proof.
  intros Hev. induction stmts as [|sql stmts IH].
  - simpl. destruct (position ev tail); reflexivity.
  - change ((EvExecute c <$> sql :: stmts) ++ tail)
      with (EvExecute c sql :: ((EvExecute c <$> stmts) ++ tail)).
    cbn [position].
    destruct (decide (EvExecute c sql = ev)) as [Heq|_].
    + exfalso. apply (Hev sql). symmetry. exact Heq.
    + rewrite IH. destruct (position ev tail); reflexivity.
Qed.

Lemma scope_events_in_order (c : nat) (stmts : list string) (x : event) :
  x = EvCommit c \/ x = EvRollback c ->
  once_each_in_order x (EvClose c)
    (EvCursor c :: (EvExecute c <$> stmts) ++ [x; EvClose c]).
Proof.
  intros Hx.
  assert (Hne : forall sql, x <> EvExecute c sql)
    by (intros sql; destruct Hx; subst; discriminate).
  unfold once_each_in_order, precedes.
  change (EvCursor c :: (EvExecute c <$> stmts) ++ [x; EvClose c])
    with ([EvCursor c] ++ (EvExecute c <$> stmts) ++ [x; EvClose c]).
  rewrite !issued_app, !issued_executes by (assumption || discriminate).
  cbn [app position]. rewrite !position_executes by (assumption || discriminate).
  unfold issued.
  destruct Hx as [-> | ->]; cbn; repeat case_decide; try congruence;
    (repeat split; try reflexivity; apply Nat.ltb_lt; lia).
Qed.

(** Entering either wrapper is one [cursor()] call on its connection. *)
Lemma wrapper_enter {D : Driver} (self : wrapper) (tr : list event) :
  cm_enter self tr
  = (match driver_fault (EvCursor (conn_id (cm_connection self))) tr with
     | Some e => Raises e
     | None => Returns (new_cursor (cm_connection self))
     end, tr ++ [EvCursor (conn_id (cm_connection self))]).
Proof.
  destruct self as [self|self]; simpl;
    unfold SQLiteCursor.__enter__, PostgresCursor.__enter__,
      Connection_cursor, driver_call, mbind, M_bind, mret, M_ret;
    destruct (driver_fault _ tr); reflexivity.
Qed.

(** Leaving either wrapper: [rollback()] when the class of the exception
    tests true, [commit()] otherwise, then [close()] if that call returned,
    then [None]. *)
Lemma wrapper_exit {D : Driver} (self : wrapper) (exception : option exc_class)
    (message : option exn) (traceback : option unit) (tr : list event) :
  let c := conn_id (cm_connection self) in
  let settle := if truthy_class exception then EvRollback c else EvCommit c in
  cm_exit self exception message traceback tr
  = match driver_fault settle tr with
    | Some e => (Raises e, tr ++ [settle])
    | None =>
        (match driver_fault (EvClose c) (tr ++ [settle]) with
         | Some e => Raises e
         | None => Returns PyNone
         end, tr ++ [settle; EvClose c])
    end.
Proof.
  destruct self as [self|self]; simpl;
    unfold SQLiteCursor.__exit__, PostgresCursor.__exit__,
      Connection_rollback, Connection_commit, Connection_close, driver_call,
      mbind, M_bind, mret, M_ret; simpl;
    destruct (truthy_class exception);
    (destruct (driver_fault _ tr); try reflexivity;
     rewrite <- app_assoc; simpl;
     destruct (driver_fault (EvClose _) _); reflexivity).
Qed.

(** Leaving either wrapper with an exception of a class that tests true:
    [rollback()], then [close()] if the rollback returned, then [None]. *)
Lemma wrapper_exit_error {D : Driver} (self : wrapper) (cls : exc_class)
    (message : option exn) (traceback : option unit) (tr : list event) :
  exc_truth cls = true ->
  let c := conn_id (cm_connection self) in
  cm_exit self (Some cls) message traceback tr
  = match driver_fault (EvRollback c) tr with
    | Some e => (Raises e, tr ++ [EvRollback c])
    | None =>
        (match driver_fault (EvClose c) (tr ++ [EvRollback c]) with
         | Some e => Raises e
         | None => Returns PyNone
         end, tr ++ [EvRollback c; EvClose c])
    end.
Proof.
  intros Htruth c. rewrite wrapper_exit. cbn [truthy_class].
  rewrite Htruth. reflexivity.
Qed.

(** Leaving either wrapper without an exception: [commit()], then [close()]
    if the commit returned, then [None]. *)
Lemma wrapper_exit_clean {D : Driver} (self : wrapper)
    (message : option exn) (traceback : option unit) (tr : list event) :
  let c := conn_id (cm_connection self) in
  cm_exit self None message traceback tr
  = match driver_fault (EvCommit c) tr with
    | Some e => (Raises e, tr ++ [EvCommit c])
    | None =>
        (match driver_fault (EvClose c) (tr ++ [EvCommit c]) with
         | Some e => Raises e
         | None => Returns PyNone
         end, tr ++ [EvCommit c; EvClose c])
    end.
Proof.
  destruct self as [self|self]; simpl;
    unfold SQLiteCursor.__exit__, PostgresCursor.__exit__,
      Connection_commit, Connection_close, driver_call, mbind, M_bind,
      mret, M_ret; simpl;
    destruct (driver_fault (EvCommit _) tr); try reflexivity;
    rewrite <- app_assoc; simpl;
    destruct (driver_fault (EvClose _) _); reflexivity.
Qed.

(** The [with] statement, phase by phase. *)
Lemma with_unfold {D : Driver} {A : Type} (self : wrapper) (body : block A)
    (tr : list event) :
  with_ self body tr
  = match cm_enter self tr with
    | (Returns cursor, tr1) =>
        leave self (run_block body cursor tr1).1 (run_block body cursor tr1).2
    | (Raises e, tr1) => (Raises e, tr1)
    end.
Proof.
  unfold with_, mbind, M_bind, attempt.
  destruct (cm_enter self tr) as [[cursor|e] tr1]; reflexivity.
Qed.

Lemma leave_unfold {D : Driver} {A : Type} (self : wrapper)
    (r : py_result A) (tr : list event) :
  leave self r tr
  = match r with
    | Returns a =>
        match cm_exit self None None None tr with
        | (Returns _, tr') => (Returns (Some a), tr')
        | (Raises e, tr') => (Raises e, tr')
        end
    | Raises e =>
        match cm_exit self (Some (exn_class e)) (Some e) (Some tt) tr with
        | (Returns suppress, tr') =>
            if truthy suppress then (Returns None, tr') else (Raises e, tr')
        | (Raises e', tr') => (Raises e', tr')
        end
    end.
Proof.
  unfold leave, mbind, M_bind, mret, M_ret, raise.
  destruct r as [a|e].
  - destruct (cm_exit self None None None tr) as [[v|e] tr']; reflexivity.
  - destruct (cm_exit self _ _ _ tr) as [[v|e'] tr']; [|reflexivity].
    destruct (truthy v); reflexivity.
Qed.

(** C1, as the code has it: when the scope of a wrapper, embedded or
    client-server, exits without an error, the calls of the scope hold
    exactly one commit and exactly one close of the wrapper's connection,
    the commit first. *)
Theorem successful_scope_commit_then_close :
  forall (D : Driver) (self : wrapper) (A : Type) (body : block A)
         (tr : list event) (v : option A) (tr' : list event),
    with_ self body tr = (Returns v, tr') ->
    let c := conn_id (cm_connection self) in
    once_each_in_order (EvCommit c) (EvClose c) (events_since tr tr').
Proof.
  intros D self A body tr v tr' Hwith c.
  rewrite with_unfold, wrapper_enter in Hwith.
  destruct (driver_fault (EvCursor _) tr); [discriminate|].
  rewrite leave_unfold in Hwith. unfold run_block in Hwith.
  cbn [fst snd] in Hwith.
  destruct ((body (new_cursor (cm_connection self))).2) as [a|e].
  - rewrite wrapper_exit_clean in Hwith. fold c in Hwith.
    cbn [cursor_connection new_cursor] in Hwith. fold c in Hwith.
    destruct (driver_fault (EvCommit c) _); [discriminate|].
    destruct (driver_fault (EvClose c) _); [discriminate|].
    injection Hwith as _ <-.
    rewrite <- !app_assoc, events_since_app.
    apply (scope_events_in_order c). left. reflexivity.
  - rewrite wrapper_exit in Hwith. cbn zeta in Hwith.
    destruct (driver_fault _ _); [discriminate|].
    destruct (driver_fault (EvClose _) _); discriminate.
Qed.

Lemma successful_scope_commit_then_close_witness :
  once_each_in_order (EvCommit 0) (EvClose 0)
    [EvCursor 0; EvExecute 0 "INSERT INTO t VALUES (1)"; EvCommit 0;
     EvClose 0].
Proof.
  apply (successful_scope_commit_then_close reliable_driver
           (ClientServer
              (PostgresCursor.mk
                 (mkConnection 0 psycopg "dbname=etl" psycopg_dict_row)))
           unit
           (fun _ => (["INSERT INTO t VALUES (1)"], Returns tt))
           [EvConnect psycopg "dbname=etl" psycopg_dict_row]
           (Some tt)
           [EvConnect psycopg "dbname=etl" psycopg_dict_row; EvCursor 0;
            EvExecute 0 "INSERT INTO t VALUES (1)"; EvCommit 0; EvClose 0]).
  reflexivity.
Defined.

(** C1 as stated fails: in a scope that exits without an error the close
    does not come before the commit. *)
Lemma successful_scope_close_then_commit_refuted :
  exists tr' : list event,
    with_new (D := reliable_driver)
      (SQLiteCursor.__init__ (D := reliable_driver) None)
      (fun _ => (["INSERT INTO t VALUES (1)"], Returns tt)) []
    = (Returns (Some tt), tr')
    /\ ~ once_each_in_order (EvClose 0) (EvCommit 0) tr'.
Proof.
  eexists. split; [reflexivity|].
  intros (_ & _ & Horder). vm_compute in Horder. discriminate.
Qed.

(** The trace at the end of the block of a scope that was entered. *)
Lemma entered_block_trace {D : Driver} {A : Type} (self : wrapper)
    (body : block A) (tr tr1 tr2 : list event) (cursor : Cursor)
    (r : py_result A) :
  cm_enter self tr = (Returns cursor, tr1) ->
  run_block body cursor tr1 = (r, tr2) ->
  let c := conn_id (cm_connection self) in
  cursor = new_cursor (cm_connection self)
  /\ r = (body cursor).2
  /\ tr2 = tr ++ EvCursor c :: (EvExecute c <$> (body cursor).1).
Proof.
  intros Henter Hbody c. rewrite wrapper_enter in Henter.
  destruct (driver_fault _ tr); [discriminate|].
  injection Henter as <- <-. unfold run_block in Hbody.
  injection Hbody as <- <-. rewrite <- app_assoc. repeat split.
Qed.

Lemma issued_scope_tail (ev : event) (c : nat) (stmts : list string)
    (tail : list event) :
  ev <> EvCursor c -> (forall sql, ev <> EvExecute c sql) ->
  issued ev ([EvCursor c] ++ (EvExecute c <$> stmts) ++ tail) = issued ev tail.
Proof.
  intros Hcur Hexe. rewrite !issued_app, issued_executes by exact Hexe.
  unfold issued. rewrite filter_cons_False by congruence. reflexivity.
Qed.

Lemma connects_scope_tail (c : nat) (stmts : list string) (tail : list event) :
  connects ([EvCursor c] ++ (EvExecute c <$> stmts) ++ tail) = connects tail.
Proof.
  unfold connects. cbn [app List.filter is_connect].
  induction stmts as [|sql stmts IH]; [reflexivity | exact IH].
Qed.

(** C2, as the code has it: when the block of a scope, of either wrapper,
    raises an error whose class tests true, as exception classes ordinarily
    do, the calls of the scope hold exactly one rollback of the wrapper's
    connection and no commit.  When the rollback returns, they hold exactly
    one close as well, after the rollback; when the rollback itself raises,
    they hold no close. *)
Theorem failing_scope_rollback_then_close :
  forall (D : Driver) (self : wrapper) (A : Type) (body : block A)
         (tr tr1 tr2 : list event) (cursor : Cursor) (e : exn),
    cm_enter self tr = (Returns cursor, tr1) ->
    run_block body cursor tr1 = (Raises e, tr2) ->
    exc_truth (exn_class e) = true ->
    let c := conn_id (cm_connection self) in
    let evs := events_since tr (with_ self body tr).2 in
    issued (EvRollback c) evs = 1
    /\ issued (EvCommit c) evs = 0
    /\ match driver_fault (EvRollback c) tr2 with
       | None => once_each_in_order (EvRollback c) (EvClose c) evs
       | Some _ => issued (EvClose c) evs = 0
       end.
Proof.
  intros D self A body tr tr1 tr2 cursor e Henter Hbody Htruth c evs.
  subst evs.
  rewrite with_unfold, Henter, Hbody, leave_unfold. cbn [fst snd].
  rewrite wrapper_exit_error by exact Htruth. cbn zeta. fold c.
  destruct (entered_block_trace self body tr tr1 tr2 cursor _ Henter Hbody)
    as (_ & _ & ->). fold c.
  assert (Hone : forall x y : event, x <> y -> issued x [y] = 0).
  { intros x y Hxy. unfold issued. rewrite filter_cons_False by congruence.
    reflexivity. }
  assert (Hsame : forall x : event, issued x [x] = 1).
  { intros x. unfold issued. rewrite filter_cons_True by reflexivity.
    reflexivity. }
  assert (Hevs : forall tail : list event,
             events_since tr
               ((tr ++ EvCursor c :: (EvExecute c <$> (body cursor).1)) ++ tail)
             = [EvCursor c] ++ (EvExecute c <$> (body cursor).1) ++ tail).
  { intros tail. rewrite <- !app_assoc. apply events_since_app. }
  destruct (driver_fault (EvRollback c) _) as [e1|].
  - cbn [snd]. rewrite Hevs, !issued_scope_tail by discriminate.
    rewrite Hsame, !Hone by discriminate. repeat split.
  - assert (Hcounts :
      issued (EvRollback c)
        ([EvCursor c] ++ (EvExecute c <$> (body cursor).1)
           ++ [EvRollback c; EvClose c]) = 1
      /\ issued (EvCommit c)
           ([EvCursor c] ++ (EvExecute c <$> (body cursor).1)
              ++ [EvRollback c; EvClose c]) = 0
      /\ once_each_in_order (EvRollback c) (EvClose c)
           ([EvCursor c] ++ (EvExecute c <$> (body cursor).1)
              ++ [EvRollback c; EvClose c])).
    { rewrite !issued_scope_tail by discriminate.
      change [EvRollback c; EvClose c] with ([EvRollback c] ++ [EvClose c]).
      rewrite !issued_app, Hsame, !Hone by discriminate.
      repeat split; try reflexivity;
        apply (scope_events_in_order c); right; reflexivity. }
    destruct (driver_fault (EvClose c) _) as [e2|]; cbn [snd];
      try (destruct (truthy PyNone); cbn [snd]);
      rewrite Hevs; exact Hcounts.
Qed.

Lemma failing_scope_rollback_then_close_witness :
  let self :=
    Embedded (SQLiteCursor.mk (mkConnection 0 sqlite3 "etl.db" module_dict_row)) in
  let body : block unit :=
    fun _ => (["INSERT INTO t VALUES (1)"], Raises (Error "ValueError" "bad row")) in
  let tr := [EvConnect sqlite3 "etl.db" default_row_factory] in
  let evs := events_since tr (with_ (D := reliable_driver) self body tr).2 in
  issued (EvRollback 0) evs = 1
  /\ issued (EvCommit 0) evs = 0
  /\ once_each_in_order (EvRollback 0) (EvClose 0) evs.
Proof.
  intros self body tr evs.
  apply (failing_scope_rollback_then_close reliable_driver self unit body
           tr (tr ++ [EvCursor 0])
           (tr ++ [EvCursor 0; EvExecute 0 "INSERT INTO t VALUES (1)"])
           (new_cursor (mkConnection 0 sqlite3 "etl.db" module_dict_row))
           (Error "ValueError" "bad row"));
    reflexivity.
Defined.

(** C2 as stated fails.  In a scope whose block raises, the close does not
    come before the rollback; when the rollback itself raises, the
    connection is not closed at all; and when the class of the error tests
    false, a commit is issued and no rollback. *)
Lemma failing_scope_close_then_rollback_refuted :
  (exists tr' : list event,
     with_new (D := reliable_driver)
       (SQLiteCursor.__init__ (D := reliable_driver) None)
       (fun _ => (["INSERT INTO t VALUES (1)"],
                  Raises (A := unit) (Error "ValueError" "bad row"))) []
     = (Raises (Error "ValueError" "bad row"), tr')
     /\ ~ (once_each_in_order (EvClose 0) (EvRollback 0) tr'
           /\ issued (EvCommit 0) tr' = 0))
  /\ (exists tr' : list event,
        with_new (D := lost_connection_driver)
          (SQLiteCursor.__init__ (D := lost_connection_driver) None)
          (fun _ => (["INSERT INTO t VALUES (1)"],
                     Raises (A := unit) (Error "ValueError" "bad row"))) []
        = (Raises (Error "OperationalError" "the connection is lost"), tr')
        /\ issued (EvClose 0) tr' = 0)
  /\ (exists tr' : list event,
        with_new (D := reliable_driver)
          (SQLiteCursor.__init__ (D := reliable_driver) None)
          (fun _ => (["INSERT INTO t VALUES (1)"],
                     Raises (A := unit) (FalsyError "Quiet" "bad row"))) []
        = (Raises (FalsyError "Quiet" "bad row"), tr')
        /\ issued (EvCommit 0) tr' = 1
        /\ issued (EvRollback 0) tr' = 0).
Proof.
  split; [|split].
  - eexists. split; [reflexivity|].
    intros ((_ & _ & Horder) & _). vm_compute in Horder. discriminate.
  - eexists. split; reflexivity.
  - eexists. repeat split.
Qed.

(** When the block of a scope raises, the [with] statement ends with an
    exception whatever the driver does during the cleanup: the exit handler
    suppresses nothing. *)
Lemma scope_error_never_suppressed {D : Driver} {A : Type} (self : wrapper)
    (body : block A) (tr tr1 tr2 : list event) (cursor : Cursor) (e : exn) :
  cm_enter self tr = (Returns cursor, tr1) ->
  run_block body cursor tr1 = (Raises e, tr2) ->
  exists e', (with_ self body tr).1 = Raises e'.
Proof.
  intros Henter Hbody.
  rewrite with_unfold, Henter, Hbody, leave_unfold. cbn [fst snd].
  rewrite wrapper_exit. cbn zeta.
  destruct (driver_fault _ tr2) as [e1|]; [exists e1; reflexivity|].
  destruct (driver_fault (EvClose _) _) as [e2|];
    [exists e2; reflexivity | exists e; reflexivity].
Qed.




(** C7, as the code has it: the connection is made when the wrapper is
    constructed.  A constructor that returns has made the driver's connect
    call, and the connection it holds turns rows into mappings from column
    name to value.  Entering the scope makes no connection: it makes one
    [cursor()] call and returns the cursor bound to the connection made at
    construction. *)
Theorem connection_made_at_construction :
  forall D : Driver,
    (forall (db : option string) (tr tr1 : list event) (self : SQLiteCursor.t),
        SQLiteCursor.__init__ db tr = (Returns self, tr1) ->
        let target := default ":memory:" db in
        tr1 = tr ++ [EvConnect sqlite3 target default_row_factory]
        /\ SQLiteCursor.connection self
           = mkConnection (length tr) sqlite3 target module_dict_row)
    /\ (forall (config : gmap string (option string)) (tr tr1 : list event)
               (self : PostgresCursor.t),
          PostgresCursor.__init__ config tr = (Returns self, tr1) ->
          exists credentials : string,
            tr1 = tr ++ [EvConnect psycopg credentials psycopg_dict_row]
            /\ PostgresCursor.connection self
               = mkConnection (length tr) psycopg credentials psycopg_dict_row)
    /\ (forall (self : wrapper) (tr tr1 : list event) (cursor : Cursor),
          cm_enter self tr = (Returns cursor, tr1) ->
          tr1 = tr ++ [EvCursor (conn_id (cm_connection self))]
          /\ connects (events_since tr tr1) = []
          /\ cursor = new_cursor (cm_connection self))
    /\ (forall (keys : list string) (row : list py_value),
          make_row module_dict_row keys row = RowDict (dict (zip keys row))
          /\ make_row psycopg_dict_row keys row = RowDict (dict (zip keys row))).
Proof.
  intros D. repeat apply conj.
  - intros db tr tr1 self.
    unfold SQLiteCursor.__init__, sqlite3_connect, history, driver_call,
      mbind, M_bind, mret, M_ret.
    destruct (driver_fault _ tr); [discriminate|].
    intros [= <- <-]. split; destruct db; reflexivity.
  - intros config tr tr1 self.
    unfold PostgresCursor.__init__, getitem, psycopg_connect, history,
      driver_call, raise, mbind, M_bind, mret, M_ret.
    destruct (config !! "HOST"); [|discriminate].
    destruct (config !! "PORT"); [|discriminate].
    destruct (config !! "DB"); [|discriminate].
    destruct (config !! "USER"); [|discriminate].
    destruct (config !! "PASSWORD"); [|discriminate].
    destruct (driver_fault _ tr); [discriminate|].
    intros [= <- <-]. eexists. split; reflexivity.
  - intros self tr tr1 cursor. rewrite wrapper_enter.
    destruct (driver_fault _ tr); [discriminate|].
    intros [= <- <-]. rewrite events_since_app. repeat split.
  - intros keys row. split; reflexivity.
Qed.

Lemma connection_made_at_construction_witness :
  let config : gmap string (option string) :=
    <["HOST" := Some "db.local"]> (<["PORT" := Some "5432"]>
    (<["DB" := Some "etl"]> (<["USER" := Some "loader"]>
    (<["PASSWORD" := Some "s3cret"]> ∅)))) in
  let conninfo :=
    "dbname=etl user=loader password=s3cret host=db.local port=5432" in
  let self :=
    Embedded (SQLiteCursor.mk (mkConnection 0 sqlite3 ":memory:" module_dict_row)) in
  ([EvConnect sqlite3 ":memory:" default_row_factory]
   = [] ++ [EvConnect sqlite3 ":memory:" default_row_factory]
   /\ mkConnection 0 sqlite3 ":memory:" module_dict_row
      = mkConnection 0 sqlite3 ":memory:" module_dict_row)
  /\ (exists credentials : string,
        [EvConnect psycopg conninfo psycopg_dict_row]
        = [] ++ [EvConnect psycopg credentials psycopg_dict_row]
        /\ mkConnection 0 psycopg conninfo psycopg_dict_row
           = mkConnection (length (@nil event)) psycopg credentials
                          psycopg_dict_row)
  /\ ([EvConnect sqlite3 ":memory:" default_row_factory; EvCursor 0]
      = [EvConnect sqlite3 ":memory:" default_row_factory] ++ [EvCursor 0]
      /\ connects
           (events_since [EvConnect sqlite3 ":memory:" default_row_factory]
              [EvConnect sqlite3 ":memory:" default_row_factory; EvCursor 0])
         = []
      /\ mkCursor sqlite3_Cursor 0 module_dict_row
         = new_cursor (cm_connection self)).
Proof.
  intros config conninfo self.
  destruct (connection_made_at_construction reliable_driver)
    as (Hsqlite & Hpostgres & Henter & _).
  split; [|split].
  - apply (Hsqlite None [] _ (SQLiteCursor.mk _)). reflexivity.
  - apply (Hpostgres config [] _ (PostgresCursor.mk _)). reflexivity.
  - apply (Henter self [EvConnect sqlite3 ":memory:" default_row_factory]).
    reflexivity.
Defined.

(** C7 as stated fails: constructing a [SQLiteCursor], without entering its
    scope, has already made the connection. *)
Lemma no_connection_before_entry_refuted :
  connects (SQLiteCursor.__init__ (D := reliable_driver) None []).2
  = [EvConnect sqlite3 ":memory:" default_row_factory]
  /\ ~ connects (SQLiteCursor.__init__ (D := reliable_driver) None []).2 = [].
Proof.
  split; [reflexivity | discriminate].
Qed.

(** ** The extraction patterns *)

Lemma length_append (a b : string) :
  String.length (a +:+ b) = String.length a + String.length b.
Proof. induction a as [|c a IH]; simpl; [reflexivity | now rewrite IH]. Qed.

Lemma substring_prefix (a b : string) :
  substring 0 (String.length (a +:+ b) - String.length b) (a +:+ b) = a.
Proof.
  rewrite length_append, Nat.add_sub.
  induction a as [|c a IH]; simpl.
  - destruct b; reflexivity.
  - rewrite IH. reflexivity.
Qed.

Lemma append_assoc (a b c : string) : (a +:+ b) +:+ c = a +:+ (b +:+ c).
Proof.
  induction a as [|x a IH]; [reflexivity|].
  change (String x ((a +:+ b) +:+ c) = String x (a +:+ (b +:+ c))).
  rewrite IH. reflexivity.
Qed.

(** A decoded character is a non-empty prefix of the text, and is decoded
    the same way whatever follows it. *)
Lemma decode_char_split (s s' : string) (cp : N) :
  decode_char s = Some (cp, s') ->
  exists ch, ch <> EmptyString /\ s = ch +:+ s'
             /\ forall t, decode_char (ch +:+ t) = Some (cp, t).
Proof.
  intros H. destruct s as [|b0 s1]; [discriminate|].
  unfold decode_char in H. cbv zeta in H.
  destruct (N.ltb (N_of_ascii b0) 128) eqn:E1.
  { injection H as <- <-. exists (String b0 EmptyString).
    split; [discriminate|]. split; [reflexivity|]. intros t.
    change (String b0 EmptyString +:+ t) with (String b0 t).
    unfold decode_char. cbv zeta. rewrite E1. reflexivity. }
  destruct (N.ltb (N_of_ascii b0) 194) eqn:E2; [discriminate|].
  destruct (N.ltb (N_of_ascii b0) 224) eqn:E3.
  { destruct s1 as [|b1 s2]; [discriminate|].
    destruct (continuation_byte b1) as [c1|] eqn:C1; [|discriminate].
    injection H as <- <-. exists (String b0 (String b1 EmptyString)).
    split; [discriminate|]. split; [reflexivity|]. intros t.
    change (String b0 (String b1 EmptyString) +:+ t)
      with (String b0 (String b1 t)).
    unfold decode_char. cbv zeta. rewrite E1, E2, E3, C1. reflexivity. }
  destruct (N.ltb (N_of_ascii b0) 240) eqn:E4.
  { destruct s1 as [|b1 [|b2 s3]]; try discriminate.
    destruct (continuation_byte b1) as [c1|] eqn:C1; [|discriminate].
    destruct (continuation_byte b2) as [c2|] eqn:C2; [|discriminate].
    destruct (N.leb 2048 _ && _)%bool eqn:V; [|discriminate].
    injection H as <- <-.
    exists (String b0 (String b1 (String b2 EmptyString))).
    split; [discriminate|]. split; [reflexivity|]. intros t.
    change (String b0 (String b1 (String b2 EmptyString)) +:+ t)
      with (String b0 (String b1 (String b2 t))).
    unfold decode_char. cbv zeta. rewrite E1, E2, E3, E4, C1, C2, V.
    reflexivity. }
  destruct (N.ltb (N_of_ascii b0) 245) eqn:E5; [|discriminate].
  destruct s1 as [|b1 [|b2 [|b3 s4]]]; try discriminate.
  destruct (continuation_byte b1) as [c1|] eqn:C1; [|discriminate].
  destruct (continuation_byte b2) as [c2|] eqn:C2; [|discriminate].
  destruct (continuation_byte b3) as [c3|] eqn:C3; [|discriminate].
  destruct (N.leb 65536 _ && _)%bool eqn:V; [|discriminate].
  injection H as <- <-.
  exists (String b0 (String b1 (String b2 (String b3 EmptyString)))).
  split; [discriminate|]. split; [reflexivity|]. intros t.
  change (String b0 (String b1 (String b2 (String b3 EmptyString))) +:+ t)
    with (String b0 (String b1 (String b2 (String b3 t)))).
  unfold decode_char. cbv zeta. rewrite E1, E2, E3, E4, E5, C1, C2, C3, V.
  reflexivity.
Qed.

(** The same for a word character. *)
Lemma match_word_char_split {U : UnicodeData} (s s' : string) :
  match_word_char s = Some s' ->
  exists ch, ch <> EmptyString /\ s = ch +:+ s'
             /\ forall t, match_word_char (ch +:+ t) = Some t.
Proof.
  unfold match_word_char.
  destruct (decode_char s) as [[cp s0]|] eqn:Hd; [|discriminate].
  destruct (is_word_char cp) eqn:Hw; [|discriminate].
  intros [= <-].
  destruct (decode_char_split s s0 cp Hd) as (ch & Hne & Hs & Hch).
  exists ch. split; [exact Hne|]. split; [exact Hs|].
  intros t. rewrite Hch, Hw. reflexivity.
Qed.

Lemma match_word_char_shorter {U : UnicodeData} (s s' : string) :
  match_word_char s = Some s' -> String.length s' < String.length s.
Proof.
  intros H. destruct (match_word_char_split s s' H) as (ch & Hne & -> & _).
  rewrite length_append. destruct ch; [contradiction | simpl; lia].
Qed.

(** Enough fuel is as good as the length of the text. *)
Lemma word_upto_enough {U : UnicodeData} (n fuel : nat) (s : string) :
  String.length s <= n -> String.length s <= fuel ->
  word_upto fuel s = word_upto (String.length s) s.
Proof.
  revert fuel s. induction n as [|n IH]; intros fuel s Hn Hfuel.
  - destruct s; [destruct fuel; reflexivity | simpl in Hn; lia].
  - destruct s as [|c s]; [destruct fuel; reflexivity|].
    destruct fuel as [|fuel]; [simpl in Hfuel; lia|].
    cbn [word_upto String.length].
    destruct (match_word_char (String c s)) as [s'|] eqn:Hm; [|reflexivity].
    apply match_word_char_shorter in Hm. simpl in Hm, Hn, Hfuel.
    rewrite (IH fuel s') by lia. rewrite (IH (String.length s) s') by lia.
    reflexivity.
Qed.

(** A text that starts with a word character is a word when what follows
    that character is. *)
Lemma word_step {U : UnicodeData} (s s' : string) :
  match_word_char s = Some s' -> word s = word s'.
Proof.
  intros Hm. pose proof (match_word_char_shorter s s' Hm) as Hlt.
  unfold word. destruct s as [|c s]; [simpl in Hlt; lia|].
  cbn [word_upto String.length]. rewrite Hm. simpl in Hlt.
  apply (word_upto_enough (String.length s)); lia.
Qed.

Lemma word_starts {U : UnicodeData} (s : string) :
  s <> EmptyString -> word s = true ->
  exists s', match_word_char s = Some s' /\ word s' = true.
Proof.
  intros Hne Hword.
  destruct (match_word_char s) as [s'|] eqn:Hm.
  - exists s'. split; [reflexivity|]. rewrite <- (word_step s s' Hm).
    exact Hword.
  - exfalso. unfold word in Hword. destruct s as [|c s]; [contradiction|].
    cbn [word_upto String.length] in Hword. rewrite Hm in Hword.
    discriminate.
Qed.

(** One iteration of [\w+]. *)
Lemma plus_word_step {U : UnicodeData} (fuel : nat) (s s' : string)
    (cs : captures) (k : string -> captures -> option (string * captures)) :
  match_word_char s = Some s' ->
  plus_loop (regex_matcher WordChar) fuel s cs k
  = match fuel with
    | S fuel' =>
        match plus_loop (regex_matcher WordChar) fuel' s' cs k with
        | Some x => Some x
        | None => k s' cs
        end
    | 0 => k s' cs
    end.
Proof.
  intros Hm. pose proof (match_word_char_shorter s s' Hm) as Hlt.
  destruct fuel as [|fuel]; cbn [plus_loop regex_matcher]; rewrite Hm;
    [reflexivity|].
  apply Nat.ltb_lt in Hlt. rewrite Hlt. reflexivity.
Qed.

(** At the end of a word, [\w+] has no further iteration. *)
Lemma plus_word_stops {U : UnicodeData} (fuel : nat) (tail : string)
    (cs : captures) (k : string -> captures -> option (string * captures)) :
  word_ends tail = true ->
  plus_loop (regex_matcher WordChar) fuel tail cs k = None.
Proof.
  unfold word_ends. intros Hends.
  destruct (match_word_char tail) eqn:Hm; [discriminate|].
  destruct fuel; cbn [plus_loop regex_matcher]; rewrite Hm; reflexivity.
Qed.

(** [\w+] on a word: the whole word is taken when the rest of the pattern
    matches after it, and also when the rest of the pattern cannot start
    on a word character, in which case there is no other way to match. *)
Lemma plus_word_exact {U : UnicodeData} (n : nat) (ident tail : string)
    (cs : captures) (k : string -> captures -> option (string * captures))
    (fuel : nat) :
  String.length ident <= n ->
  ident <> EmptyString -> word ident = true -> word_ends tail = true ->
  String.length ident <= S fuel ->
  (k tail cs <> None
   \/ forall s s', match_word_char s = Some s' -> k s cs = None) ->
  plus_loop (regex_matcher WordChar) fuel (ident +:+ tail) cs k = k tail cs.
Proof.
  revert ident fuel. induction n as [|n IH];
    intros ident fuel Hn Hne Hword Hends Hlen Hk.
  { destruct ident; [contradiction | simpl in Hn; lia]. }
  destruct (word_starts ident Hne Hword) as (ident' & Hm & Hword').
  destruct (match_word_char_split ident ident' Hm) as (ch & Hch & -> & Hall).
  assert (Hch1 : 1 <= String.length ch)
    by (destruct ch; [contradiction | simpl; lia]).
  rewrite length_append in Hn, Hlen.
  rewrite append_assoc.
  rewrite (plus_word_step fuel _ (ident' +:+ tail)) by apply Hall.
  destruct ident' as [|c' ident'].
  - change (EmptyString +:+ tail) with tail.
    destruct fuel; [reflexivity|].
    rewrite plus_word_stops by exact Hends. reflexivity.
  - destruct fuel as [|fuel]; [simpl in Hlen; lia|].
    rewrite (IH (String c' ident') fuel);
      [| simpl in *; lia | discriminate | exact Hword' | exact Hends
       | simpl in *; lia | exact Hk].
    destruct (k tail cs) as [x|] eqn:Hx; [reflexivity|].
    destruct Hk as [Hk|Hk]; [contradiction|].
    destruct (word_starts (String c' ident')) as (s2 & Hm2 & _);
      [discriminate | exact Hword'|].
    destruct (match_word_char_split _ _ Hm2) as (ch2 & _ & Hs2 & Hall2).
    apply (Hk _ (s2 +:+ tail)). rewrite Hs2, append_assoc. apply Hall2.
Qed.

(** [\w+] takes a whole word when the rest of the pattern matches after it. *)
Lemma word_plus_greedy {U : UnicodeData} (ident tail : string) (cs : captures)
    (k : string -> captures -> option (string * captures))
    (x : string * captures) :
  ident <> EmptyString -> word ident = true -> word_ends tail = true ->
  k tail cs = Some x ->
  regex_matcher (Plus WordChar) (ident +:+ tail) cs k = Some x.
Proof.
  intros Hne Hword Hends Hk. cbn [regex_matcher]. rewrite <- Hk.
  apply (plus_word_exact (String.length ident)); try assumption.
  - lia.
  - rewrite length_append. lia.
  - left. rewrite Hk. discriminate.
Qed.

Lemma SQLITE_VALUES_FORMAT_compiled :
  re_compile SQLITE_VALUES_FORMAT
  = Some (Cat (Chr ":") (Cat (Group 1 (Cat (Plus WordChar) Eps)) Eps), 1).
Proof. reflexivity. Qed.

Lemma POSTGRES_VALUES_FORMAT_compiled :
  re_compile POSTGRES_VALUES_FORMAT
  = Some (Cat (Chr "%") (Cat (Chr "(") (Cat (Group 1 (Cat (Plus WordChar) Eps))
            (Cat (Chr ")") (Cat (Chr "s") Eps)))), 1).
Proof. reflexivity. Qed.

Lemma sqlite_pattern_run {U : UnicodeData} (ident rest : string) :
  ident <> EmptyString -> word ident = true -> word_ends rest = true ->
  regex_matcher (Cat (Chr ":") (Cat (Group 1 (Cat (Plus WordChar) Eps)) Eps))
    (String ":" (ident +:+ rest)) [] (fun s' cs => Some (s', cs))
  = Some (rest, [(1, ident)]).
Proof.
  intros Hne Hword Hends.
  change (regex_matcher (Plus WordChar) (ident +:+ rest) []
            (fun s' cs' =>
               Some (s', (1, substring 0 (String.length (ident +:+ rest)
                                          - String.length s')
                                (ident +:+ rest)) :: cs'))
          = Some (rest, [(1, ident)])).
  apply word_plus_greedy; try assumption.
  rewrite substring_prefix. reflexivity.
Qed.

(** No word character starts with a closing parenthesis. *)
Lemma word_ends_paren {U : UnicodeData} (s : string) :
  word_ends (String ")" s) = true.
Proof. reflexivity. Qed.

Lemma postgres_pattern_run {U : UnicodeData} (ident rest : string) :
  ident <> EmptyString -> word ident = true ->
  regex_matcher
    (Cat (Chr "%") (Cat (Chr "(") (Cat (Group 1 (Cat (Plus WordChar) Eps))
       (Cat (Chr ")") (Cat (Chr "s") Eps)))))
    (String "%" (String "(" (ident +:+ ")s" +:+ rest))) []
    (fun s' cs => Some (s', cs))
  = Some (rest, [(1, ident)]).
Proof.
  intros Hne Hword.
  change (regex_matcher (Plus WordChar) (ident +:+ ")s" +:+ rest) []
            (fun s' cs' =>
               regex_matcher (Cat (Chr ")") (Cat (Chr "s") Eps)) s'
                 ((1, substring 0 (String.length (ident +:+ ")s" +:+ rest)
                                   - String.length s')
                         (ident +:+ ")s" +:+ rest)) :: cs')
                 (fun s'' cs'' => Some (s'', cs'')))
          = Some (rest, [(1, ident)])).
  apply word_plus_greedy; try assumption; [apply word_ends_paren|].
  rewrite substring_prefix. reflexivity.
Qed.

(** C8: for every non-empty identifier made of word characters, in Python's
    sense of [\w] on text (the ASCII letters, digits and underscore, and
    the alphanumeric characters of Unicode), the SQLite pattern matches
    [:identifier] at the start of a text in which no word character follows
    the identifier, and the Postgres pattern matches [%(identifier)s] at
    the start of any text; in both cases the match is the marker and its
    group is the identifier. *)
Theorem values_patterns_capture_identifier :
  forall (U : UnicodeData) (ident rest rest' : string),
    ident <> EmptyString ->
    word ident = true ->
    word_ends rest = true ->
    re_match SQLITE_VALUES_FORMAT (":" +:+ ident +:+ rest)
    = Some (Some (mkMatch (":" +:+ ident) [Some ident]))
    /\ re_match POSTGRES_VALUES_FORMAT ("%(" +:+ ident +:+ ")s" +:+ rest')
       = Some (Some (mkMatch ("%(" +:+ ident +:+ ")s") [Some ident])).
Proof.
  intros U ident rest rest' Hne Hword Hends. split.
  - unfold re_match. rewrite SQLITE_VALUES_FORMAT_compiled.
    change (":" +:+ ident +:+ rest) with (String ":" (ident +:+ rest)).
    rewrite sqlite_pattern_run by assumption.
    change (String ":" (ident +:+ rest)) with ((":" +:+ ident) +:+ rest).
    rewrite substring_prefix. reflexivity.
  - unfold re_match. rewrite POSTGRES_VALUES_FORMAT_compiled.
    change ("%(" +:+ ident +:+ ")s" +:+ rest')
      with (String "%" (String "(" (ident +:+ ")s" +:+ rest'))).
    rewrite postgres_pattern_run by assumption.
    replace (String "%" (String "(" (ident +:+ ")s" +:+ rest')))
      with (("%(" +:+ ident +:+ ")s") +:+ rest').
    + rewrite substring_prefix. reflexivity.
    + change (String "%" (String "(" ((ident +:+ ")s") +:+ rest'))
              = String "%" (String "(" (ident +:+ ")s" +:+ rest'))).
      rewrite append_assoc. reflexivity.
Qed.

Lemma values_patterns_capture_identifier_witness :
  re_match (U := latin1_letters) SQLITE_VALUES_FORMAT ":café_1, :b)"
  = Some (Some (mkMatch ":café_1" [Some "café_1"]))
  /\ re_match (U := latin1_letters) POSTGRES_VALUES_FORMAT
       "%(café_1)s, %(b)s)"
     = Some (Some (mkMatch "%(café_1)s" [Some "café_1"])).
Proof.
  apply (values_patterns_capture_identifier latin1_letters
           "café_1" ", :b)" ", %(b)s)");
    [discriminate | reflexivity | reflexivity].
Defined.

(** * Further properties *)

(** ** Rows as dictionaries *)

Lemma dict_snoc (pairs : list (string * py_value)) (k : string) (v : py_value) :
  dict (pairs ++ [(k, v)]) = <[k := v]> (dict pairs).
Proof. unfold dict. rewrite foldl_app. reflexivity. Qed.

Lemma dict_lookup_last (pairs : list (string * py_value)) (i : nat)
    (k : string) (v : py_value) :
  pairs !! i = Some (k, v) ->
  (forall j v', i < j -> pairs !! j <> Some (k, v')) ->
  dict pairs !! k = Some v.
Proof.
  revert i. induction pairs as [|[k' v'] pairs IH] using rev_ind;
    intros i Hi Hlast; [discriminate|].
  rewrite dict_snoc.
  destruct (decide (i = length pairs)) as [->|Hne].
  - rewrite lookup_app_r, Nat.sub_diag in Hi by lia.
    injection Hi as -> ->. apply lookup_insert_eq.
  - assert (Hlt : i < length pairs).
    { apply lookup_lt_Some in Hi. rewrite length_app in Hi. simpl in Hi. lia. }
    rewrite lookup_app_l in Hi by exact Hlt.
    rewrite lookup_insert_ne.
    + apply (IH i Hi). intros j w Hj Hjw. apply (Hlast j w Hj).
      rewrite lookup_app_l; [exact Hjw|]. apply lookup_lt_Some in Hjw. exact Hjw.
    + intros ->. apply (Hlast (length pairs) v' Hlt).
      rewrite lookup_app_r, Nat.sub_diag by lia. reflexivity.
Qed.

Lemma dict_lookup_is_Some (pairs : list (string * py_value)) (k : string) :
  is_Some (dict pairs !! k) <-> exists i v, pairs !! i = Some (k, v).
Proof.
  induction pairs as [|[k' v'] pairs IH] using rev_ind.
  - unfold dict. simpl. rewrite lookup_empty. split.
    + intros [? [=]].
    + intros (i & v & [=]).
  - rewrite dict_snoc. destruct (decide (k' = k)) as [->|Hne].
    + rewrite lookup_insert_eq. split; [intros _|eauto].
      exists (length pairs), v'.
      rewrite lookup_app_r, Nat.sub_diag by lia. reflexivity.
    + rewrite lookup_insert_ne by exact Hne. rewrite IH. split.
      * intros (i & v & Hi). exists i, v.
        rewrite lookup_app_l; [exact Hi|]. apply lookup_lt_Some in Hi. exact Hi.
      * intros (i & v & Hi).
        destruct (decide (i < length pairs)) as [Hlt|Hge].
        -- exists i, v. rewrite lookup_app_l in Hi by exact Hlt. exact Hi.
        -- rewrite lookup_app_r in Hi by lia.
           destruct (i - length pairs) as [|n]; simpl in Hi; [|discriminate].
           congruence.
Qed.

(** X1: in the dictionary [_dict_row] builds, a column name is bound to the
    value at the last position that carries this name and has a value: with
    two columns of one name, the later one is the one kept. *)
Theorem dict_row_last_column_wins :
  forall (keys : list string) (row : list py_value) (i : nat) (k : string)
         (v : py_value),
    keys !! i = Some k ->
    row !! i = Some v ->
    (forall j, i < j -> j < length row -> keys !! j <> Some k) ->
    _dict_row keys row !! k = Some v.
Proof.
  intros keys row i k v Hk Hv Hlast. unfold _dict_row.
  apply (dict_lookup_last _ i).
  - apply lookup_zip_Some. split; assumption.
  - intros j v' Hj Hjv. apply lookup_zip_Some in Hjv as [Hjk Hjr].
    apply (Hlast j Hj); [|exact Hjk]. apply lookup_lt_Some in Hjr. exact Hjr.
Qed.

Lemma dict_row_last_column_wins_witness :
  _dict_row ["id"; "name"; "id"] [PyInt 1; PyStr "ada"; PyInt 2] !! "id"
  = Some (PyInt 2).
Proof.
  apply (dict_row_last_column_wins _ _ 2); [reflexivity | reflexivity |].
  intros j Hlt Hlen. simpl in Hlen. lia.
Defined.

(** X2: the keys of the dictionary [_dict_row] builds are the column names
    at the positions where the row has a value: a name beyond the end of
    the row is not a key, and nothing else is. *)
Theorem dict_row_keys :
  forall (keys : list string) (row : list py_value) (k : string),
    is_Some (_dict_row keys row !! k)
    <-> exists i, keys !! i = Some k /\ i < length row.
Proof.
  intros keys row k. unfold _dict_row. rewrite dict_lookup_is_Some. split.
  - intros (i & v & Hi). apply lookup_zip_Some in Hi as [Hk Hv].
    exists i. split; [exact Hk|]. apply lookup_lt_Some in Hv. exact Hv.
  - intros (i & Hk & Hlt). destruct (lookup_lt_is_Some_2 row i Hlt) as [v Hv].
    exists i, v. apply lookup_zip_Some. split; assumption.
Qed.

(** X3: with distinct column names, as many as the row has values, reading
    the dictionary at each column name gives back the row, value by value. *)
Theorem dict_row_distinct_columns :
  forall (keys : list string) (row : list py_value),
    NoDup keys ->
    length keys = length row ->
    Forall2 (fun k v => _dict_row keys row !! k = Some v) keys row.
Proof.
  intros keys row Hnodup Hlen. apply Forall2_same_length_lookup_2.
  - exact Hlen.
  - intros i k v Hk Hv. unfold _dict_row. apply (dict_lookup_last _ i).
    + apply lookup_zip_Some. split; assumption.
    + intros j v' Hij Hjv. apply lookup_zip_Some in Hjv as [Hjk _].
      apply (NoDup_lookup keys i j k Hnodup Hk) in Hjk. lia.
Qed.

Lemma dict_row_distinct_columns_witness :
  Forall2 (fun k v => _dict_row ["id"; "name"] [PyInt 7; PyStr "ada"] !! k = Some v)
    ["id"; "name"] [PyInt 7; PyStr "ada"].
Proof.
  apply dict_row_distinct_columns; [|reflexivity].
  apply (bool_decide_unpack _). vm_compute. exact I.
Defined.

(** ** More on the dialect resolver *)

(** X4: two handles that both resolve to a descriptor resolve to the same
    descriptor exactly when they are of the same cursor class: the
    descriptor tells the dialect. *)
Theorem get_sql_format_tells_dialect :
  forall (c1 c2 : Cursor) (d1 d2 : SQLFormat),
    get_sql_format c1 = Returns (Some d1) ->
    get_sql_format c2 = Returns (Some d2) ->
    (d1 = d2 <-> cursor_class c1 = cursor_class c2).
Proof.
  intros c1 c2 d1 d2. unfold get_sql_format, isinstance.
  destruct (cursor_class c1) as [| |n1], (cursor_class c2) as [| |n2];
    simpl; intros [= <-] [= <-]; split; try reflexivity; discriminate.
Qed.

Lemma get_sql_format_tells_dialect_witness :
  SQLiteFormat = PostgresFormat <-> sqlite3_Cursor = psycopg_Cursor.
Proof.
  apply (get_sql_format_tells_dialect
           (mkCursor sqlite3_Cursor 0 module_dict_row)
           (mkCursor psycopg_Cursor 1 psycopg_dict_row));
    reflexivity.
Defined.

(** X5: the cursor that entering a [SQLiteCursor] built by its constructor
    returns resolves to the SQLite descriptor, and turns each row into the
    dictionary [_dict_row] builds. *)
Theorem SQLiteCursor_cursor_dialect :
  forall (D : Driver) (db : option string) (tr tr1 tr2 tr3 : list event)
         (self : SQLiteCursor.t) (cursor : Cursor),
    SQLiteCursor.__init__ db tr = (Returns self, tr1) ->
    SQLiteCursor.__enter__ self tr2 = (Returns cursor, tr3) ->
    get_sql_format cursor = Returns (Some SQLiteFormat)
    /\ forall keys row,
         make_row (cursor_row_factory cursor) keys row
         = RowDict (_dict_row keys row).
Proof.
  intros D db tr tr1 tr2 tr3 self cursor.
  unfold SQLiteCursor.__init__, SQLiteCursor.__enter__, sqlite3_connect,
    Connection_cursor, history, driver_call, mbind, M_bind, mret, M_ret.
  destruct (driver_fault _ tr); [discriminate|]. intros [= <- _].
  simpl. destruct (driver_fault _ tr2); [discriminate|]. intros [= <- _].
  split; [reflexivity | intros keys row; reflexivity].
Qed.

Lemma SQLiteCursor_cursor_dialect_witness :
  get_sql_format (mkCursor sqlite3_Cursor 0 module_dict_row)
  = Returns (Some SQLiteFormat)
  /\ forall keys row,
       make_row module_dict_row keys row = RowDict (_dict_row keys row).
Proof.
  apply (SQLiteCursor_cursor_dialect reliable_driver None []
           [EvConnect sqlite3 ":memory:" default_row_factory]
           [EvConnect sqlite3 ":memory:" default_row_factory]
           [EvConnect sqlite3 ":memory:" default_row_factory; EvCursor 0]
           (SQLiteCursor.mk (mkConnection 0 sqlite3 ":memory:" module_dict_row))
           (mkCursor sqlite3_Cursor 0 module_dict_row));
    reflexivity.
Defined.

(** X6: the cursor that entering a [PostgresCursor] built by its
    constructor returns resolves to the Postgres descriptor, the one with
    [copy_available], and turns each row into a dictionary by column name. *)
Theorem PostgresCursor_cursor_dialect :
  forall (D : Driver) (config : gmap string (option string))
         (tr tr1 tr2 tr3 : list event) (self : PostgresCursor.t)
         (cursor : Cursor),
    PostgresCursor.__init__ config tr = (Returns self, tr1) ->
    PostgresCursor.__enter__ self tr2 = (Returns cursor, tr3) ->
    get_sql_format cursor = Returns (Some PostgresFormat)
    /\ forall keys row,
         make_row (cursor_row_factory cursor) keys row
         = RowDict (dict (zip keys row)).
Proof.
  intros D config tr tr1 tr2 tr3 self cursor.
  unfold PostgresCursor.__init__, PostgresCursor.__enter__, getitem,
    psycopg_connect, Connection_cursor, history, driver_call, raise, mbind,
    M_bind, mret, M_ret.
  destruct (config !! "HOST"); [|discriminate].
  destruct (config !! "PORT"); [|discriminate].
  destruct (config !! "DB"); [|discriminate].
  destruct (config !! "USER"); [|discriminate].
  destruct (config !! "PASSWORD"); [|discriminate].
  destruct (driver_fault _ tr); [discriminate|]. intros [= <- _].
  simpl. destruct (driver_fault _ tr2); [discriminate|]. intros [= <- _].
  split; [reflexivity | intros keys row; reflexivity].
Qed.

Lemma PostgresCursor_cursor_dialect_witness :
  get_sql_format (mkCursor psycopg_Cursor 0 psycopg_dict_row)
  = Returns (Some PostgresFormat)
  /\ forall keys row,
       make_row psycopg_dict_row keys row = RowDict (dict (zip keys row)).
Proof.
  apply (PostgresCursor_cursor_dialect reliable_driver
           (<["HOST" := Some "h"]> (<["PORT" := Some "5432"]>
            (<["DB" := Some "etl"]> (<["USER" := Some "u"]>
            (<["PASSWORD" := Some "p"]> ∅)))))
           []
           [EvConnect psycopg "dbname=etl user=u password=p host=h port=5432"
              psycopg_dict_row]
           [] [EvCursor 0]
           (PostgresCursor.mk
              (mkConnection 0 psycopg
                 "dbname=etl user=u password=p host=h port=5432"
                 psycopg_dict_row))
           (mkCursor psycopg_Cursor 0 psycopg_dict_row));
    reflexivity.
Defined.

(** ** More on construction *)

(** X7: the [KeyError] that constructing a [PostgresCursor] raises names
    the first variable the configuration lacks, in the order [HOST], [PORT],
    [DB], [USER], [PASSWORD]; the driver has not been called. *)
Theorem PostgresCursor_init_first_missing :
  forall (D : Driver) (config : gmap string (option string))
         (tr : list event) (key : string),
    first_missing config = Some key ->
    PostgresCursor.__init__ config tr = (Raises (KeyError key), tr).
Proof.
  intros D config tr key.
  unfold first_missing, required_keys, PostgresCursor.__init__, getitem.
  cbn [List.find].
  destruct (config !! "HOST");
    [rewrite bool_decide_eq_false_2 by discriminate
    |rewrite bool_decide_eq_true_2 by reflexivity; intros [= <-]; reflexivity].
  destruct (config !! "PORT");
    [rewrite bool_decide_eq_false_2 by discriminate
    |rewrite bool_decide_eq_true_2 by reflexivity; intros [= <-]; reflexivity].
  destruct (config !! "DB");
    [rewrite bool_decide_eq_false_2 by discriminate
    |rewrite bool_decide_eq_true_2 by reflexivity; intros [= <-]; reflexivity].
  destruct (config !! "USER");
    [rewrite bool_decide_eq_false_2 by discriminate
    |rewrite bool_decide_eq_true_2 by reflexivity; intros [= <-]; reflexivity].
  destruct (config !! "PASSWORD");
    [rewrite bool_decide_eq_false_2 by discriminate
    |rewrite bool_decide_eq_true_2 by reflexivity; intros [= <-]; reflexivity].
  discriminate.
Qed.

Lemma PostgresCursor_init_first_missing_witness :
  PostgresCursor.__init__ (D := reliable_driver)
    (<["HOST" := Some "db.local"]> (<["USER" := Some "loader"]> ∅)) []
  = (Raises (KeyError "PORT"), []).
Proof.
  apply (PostgresCursor_init_first_missing reliable_driver). reflexivity.
Defined.

(** X8: with the five variables defined, constructing a [PostgresCursor]
    makes one call to the driver, the connect with the connection string
    [dbname=.. user=.. password=.. host=.. port=..] and the dictionary row
    factory; a variable without a value appears as [None].  The constructor
    raises what the connect raises, unchanged, and otherwise returns the
    wrapper of the new connection. *)
Theorem PostgresCursor_init_connects :
  forall (D : Driver) (config : gmap string (option string))
         (tr : list event) (host port database user password : option string),
    config !! "HOST" = Some host ->
    config !! "PORT" = Some port ->
    config !! "DB" = Some database ->
    config !! "USER" = Some user ->
    config !! "PASSWORD" = Some password ->
    let conninfo :=
      "dbname=" +:+ format_value database +:+ " user=" +:+ format_value user
      +:+ " password=" +:+ format_value password
      +:+ " host=" +:+ format_value host +:+ " port=" +:+ format_value port in
    let call := EvConnect psycopg conninfo psycopg_dict_row in
    PostgresCursor.__init__ config tr
    = (match driver_fault call tr with
       | Some e => Raises e
       | None =>
           Returns (PostgresCursor.mk
                      (mkConnection (length tr) psycopg conninfo
                                    psycopg_dict_row))
       end, tr ++ [call]).
Proof.
  intros D config tr host port database user password Hh Hp Hd Hu Hw
    conninfo call.
  unfold PostgresCursor.__init__, getitem, psycopg_connect, history,
    driver_call, mbind, M_bind, mret, M_ret.
  rewrite Hh, Hp, Hd, Hu, Hw. fold conninfo. fold call.
  destruct (driver_fault call tr); reflexivity.
Qed.

Lemma PostgresCursor_init_connects_witness :
  PostgresCursor.__init__ (D := reliable_driver)
    (<["HOST" := Some "db.local"]> (<["PORT" := Some "5432"]>
     (<["DB" := Some "etl"]> (<["USER" := Some "loader"]>
     (<["PASSWORD" := None]> ∅))))) []
  = (Returns
       (PostgresCursor.mk
          (mkConnection 0 psycopg
             "dbname=etl user=loader password=None host=db.local port=5432"
             psycopg_dict_row)),
     [EvConnect psycopg
        "dbname=etl user=loader password=None host=db.local port=5432"
        psycopg_dict_row]).
Proof.
  apply (PostgresCursor_init_connects reliable_driver _ []
           (Some "db.local") (Some "5432") (Some "etl") (Some "loader") None);
    reflexivity.
Defined.

(** X9: constructing a [PostgresCursor] reads nothing but the five
    variables: two configurations that agree on them give the same
    construction. *)
Theorem PostgresCursor_init_reads_required_keys :
  forall (D : Driver) (config config' : gmap string (option string))
         (tr : list event),
    (forall key, In key required_keys -> config !! key = config' !! key) ->
    PostgresCursor.__init__ config tr = PostgresCursor.__init__ config' tr.
Proof.
  intros D config config' tr Hagree.
  unfold PostgresCursor.__init__, getitem.
  rewrite !(Hagree _) by (unfold required_keys; simpl; auto 8).
  reflexivity.
Qed.

Lemma PostgresCursor_init_reads_required_keys_witness :
  PostgresCursor.__init__ (D := reliable_driver)
    (<["HOST" := Some "db.local"]> (<["PORT" := Some "5432"]> ∅)) []
  = PostgresCursor.__init__ (D := reliable_driver)
      (<["SQLITE_DB" := Some "etl.db"]>
       (<["HOST" := Some "db.local"]> (<["PORT" := Some "5432"]> ∅))) [].
Proof.
  apply (PostgresCursor_init_reads_required_keys reliable_driver).
  intros key Hin. unfold required_keys in Hin. simpl in Hin.
  destruct Hin as [<-|[<-|[<-|[<-|[<-|[]]]]]]; reflexivity.
Defined.

(** X10: when the driver's connect raises, constructing a [SQLiteCursor]
    raises the same exception; the connect is the only call made and no
    wrapper results. *)
Theorem SQLiteCursor_init_connect_error :
  forall (D : Driver) (db : option string) (tr : list event) (e : exn),
    let call := EvConnect sqlite3 (default ":memory:" db) default_row_factory in
    driver_fault call tr = Some e ->
    SQLiteCursor.__init__ db tr = (Raises e, tr ++ [call]).
Proof.
  intros D db tr e call Hfault.
  unfold SQLiteCursor.__init__, sqlite3_connect, history, driver_call,
    mbind, M_bind, mret, M_ret.
  destruct db as [db|]; simpl in *; unfold call in Hfault; simpl in Hfault;
    rewrite Hfault; reflexivity.
Qed.

Lemma SQLiteCursor_init_connect_error_witness :
  let D : Driver := fun ev _ =>
    match ev with
    | EvConnect _ _ _ => Some (Error "OperationalError" "unable to open database file")
    | _ => None
    end in
  SQLiteCursor.__init__ (D := D) (Some "/missing/etl.db") []
  = (Raises (Error "OperationalError" "unable to open database file"),
     [EvConnect sqlite3 "/missing/etl.db" default_row_factory]).
Proof.
  intros D. apply (SQLiteCursor_init_connect_error D (Some "/missing/etl.db") []).
  reflexivity.
Defined.

(** ** More on scopes *)

Lemma issued_cursor_executes (ev : event) (c : nat) (stmts : list string) :
  ev <> EvCursor c -> (forall sql, ev <> EvExecute c sql) ->
  issued ev (EvCursor c :: (EvExecute c <$> stmts)) = 0.
Proof.
  intros Hcur Hexe.
  change (issued ev ([EvCursor c] ++ (EvExecute c <$> stmts)) = 0).
  rewrite issued_app, issued_executes by exact Hexe.
  unfold issued. rewrite filter_cons_False by congruence. reflexivity.
Qed.

(** X11: when the block of a scope returns and the commit raises, the
    [with] statement raises the exception of the commit and the connection
    is not closed: no close call is made. *)
Theorem commit_failure_skips_close :
  forall (D : Driver) (self : wrapper) (A : Type) (body : block A)
         (tr tr1 tr2 : list event) (cursor : Cursor) (a : A) (e : exn),
    let c := conn_id (cm_connection self) in
    cm_enter self tr = (Returns cursor, tr1) ->
    run_block body cursor tr1 = (Returns a, tr2) ->
    driver_fault (EvCommit c) tr2 = Some e ->
    with_ self body tr = (Raises e, tr2 ++ [EvCommit c])
    /\ issued (EvClose c) (events_since tr (tr2 ++ [EvCommit c])) = 0.
Proof.
  intros D self A body tr tr1 tr2 cursor a e c Henter Hbody Hfault. split.
  - rewrite with_unfold, Henter, Hbody, leave_unfold. cbn [fst snd].
    rewrite wrapper_exit_clean. cbn zeta. fold c. rewrite Hfault. reflexivity.
  - destruct (entered_block_trace self body tr tr1 tr2 cursor _ Henter Hbody)
      as (_ & _ & ->). fold c.
    rewrite <- app_assoc, events_since_app.
    rewrite issued_app, issued_cursor_executes by discriminate. reflexivity.
Qed.

Lemma commit_failure_skips_close_witness :
  let D : Driver := fun ev _ =>
    match ev with
    | EvCommit _ => Some (Error "OperationalError" "disk is full")
    | _ => None
    end in
  let self :=
    Embedded (SQLiteCursor.mk (mkConnection 0 sqlite3 "etl.db" module_dict_row)) in
  let body : block unit := fun _ => (["INSERT INTO t VALUES (1)"], Returns tt) in
  let tr := [EvConnect sqlite3 "etl.db" default_row_factory] in
  let tr2 := tr ++ [EvCursor 0; EvExecute 0 "INSERT INTO t VALUES (1)"] in
  with_ (D := D) self body tr
  = (Raises (Error "OperationalError" "disk is full"), tr2 ++ [EvCommit 0])
  /\ issued (EvClose 0) (events_since tr (tr2 ++ [EvCommit 0])) = 0.
Proof.
  intros D self body tr tr2.
  apply (commit_failure_skips_close D self unit body tr (tr ++ [EvCursor 0]) tr2
           (new_cursor (mkConnection 0 sqlite3 "etl.db" module_dict_row)) tt);
    reflexivity.
Defined.

(** X12: when the block of a scope raises an error whose class tests true
    and the rollback raises too, the [with] statement raises the exception
    of the rollback in place of the block's, and the connection is not
    closed: no close call is made. *)
Theorem rollback_failure_skips_close :
  forall (D : Driver) (self : wrapper) (A : Type) (body : block A)
         (tr tr1 tr2 : list event) (cursor : Cursor) (e e' : exn),
    let c := conn_id (cm_connection self) in
    cm_enter self tr = (Returns cursor, tr1) ->
    run_block body cursor tr1 = (Raises e, tr2) ->
    exc_truth (exn_class e) = true ->
    driver_fault (EvRollback c) tr2 = Some e' ->
    with_ self body tr = (Raises e', tr2 ++ [EvRollback c])
    /\ issued (EvClose c) (events_since tr (tr2 ++ [EvRollback c])) = 0.
Proof.
  intros D self A body tr tr1 tr2 cursor e e' c Henter Hbody Htruth Hfault.
  split.
  - rewrite with_unfold, Henter, Hbody, leave_unfold. cbn [fst snd].
    rewrite wrapper_exit_error by exact Htruth. cbn zeta. fold c.
    rewrite Hfault. reflexivity.
  - destruct (entered_block_trace self body tr tr1 tr2 cursor _ Henter Hbody)
      as (_ & _ & ->). fold c.
    rewrite <- app_assoc, events_since_app.
    rewrite issued_app, issued_cursor_executes by discriminate. reflexivity.
Qed.

Lemma rollback_failure_skips_close_witness :
  let self :=
    ClientServer
      (PostgresCursor.mk (mkConnection 0 psycopg "dbname=etl" psycopg_dict_row)) in
  let body : block unit :=
    fun _ => (["SELECT 1"], Raises (Error "ValueError" "bad row")) in
  let tr := [EvConnect psycopg "dbname=etl" psycopg_dict_row] in
  let tr2 := tr ++ [EvCursor 0; EvExecute 0 "SELECT 1"] in
  with_ (D := lost_connection_driver) self body tr
  = (Raises (Error "OperationalError" "the connection is lost"),
     tr2 ++ [EvRollback 0])
  /\ issued (EvClose 0) (events_since tr (tr2 ++ [EvRollback 0])) = 0.
Proof.
  intros self body tr tr2.
  apply (rollback_failure_skips_close lost_connection_driver self unit body tr
           (tr ++ [EvCursor 0]) tr2
           (new_cursor (mkConnection 0 psycopg "dbname=etl" psycopg_dict_row))
           (Error "ValueError" "bad row"));
    reflexivity.
Defined.

(** X13: when the call of the exit handler that settles the transaction
    has returned and the close raises, the [with] statement raises the
    exception of the close, whether the block had returned or raised.  The
    settling call is the rollback when the block raised an error whose
    class tests true, and the commit otherwise. *)
Theorem close_failure_propagates :
  forall (D : Driver) (self : wrapper) (A : Type) (body : block A)
         (tr tr1 tr2 : list event) (cursor : Cursor) (r : py_result A)
         (e : exn),
    let c := conn_id (cm_connection self) in
    let settle :=
      match r with
      | Returns _ => EvCommit c
      | Raises e0 =>
          if exc_truth (exn_class e0) then EvRollback c else EvCommit c
      end in
    cm_enter self tr = (Returns cursor, tr1) ->
    run_block body cursor tr1 = (r, tr2) ->
    driver_fault settle tr2 = None ->
    driver_fault (EvClose c) (tr2 ++ [settle]) = Some e ->
    with_ self body tr = (Raises e, tr2 ++ [settle; EvClose c]).
Proof.
  intros D self A body tr tr1 tr2 cursor r e c settle Henter Hbody Hsettle
    Hclose.
  rewrite with_unfold, Henter, Hbody, leave_unfold. cbn [fst snd].
  destruct r as [a|e0]; unfold settle in *.
  - rewrite wrapper_exit_clean. cbn zeta. fold c. rewrite Hsettle, Hclose.
    reflexivity.
  - rewrite wrapper_exit. cbn zeta. cbn [truthy_class]. fold c.
    rewrite Hsettle, Hclose. reflexivity.
Qed.

Lemma close_failure_propagates_witness :
  let D : Driver := fun ev _ =>
    match ev with
    | EvClose _ => Some (Error "ProgrammingError" "cannot close")
    | _ => None
    end in
  let self :=
    Embedded (SQLiteCursor.mk (mkConnection 0 sqlite3 "etl.db" module_dict_row)) in
  let body : block unit := fun _ => (["INSERT INTO t VALUES (1)"], Returns tt) in
  let tr := [EvConnect sqlite3 "etl.db" default_row_factory] in
  let tr2 := tr ++ [EvCursor 0; EvExecute 0 "INSERT INTO t VALUES (1)"] in
  with_ (D := D) self body tr
  = (Raises (Error "ProgrammingError" "cannot close"),
     tr2 ++ [EvCommit 0; EvClose 0]).
Proof.
  intros D self body tr tr2.
  apply (close_failure_propagates D self unit body tr (tr ++ [EvCursor 0]) tr2
           (new_cursor (mkConnection 0 sqlite3 "etl.db" module_dict_row))
           (Returns tt));
    reflexivity.
Defined.

(** X14: when the [cursor()] call of the entry raises, the [with] statement
    raises that exception; the block is not run and the exit handler is not
    called, so the connection made at construction is neither committed,
    rolled back nor closed. *)
Theorem enter_failure_skips_exit :
  forall (D : Driver) (self : wrapper) (A : Type) (body : block A)
         (tr : list event) (e : exn),
    let c := conn_id (cm_connection self) in
    driver_fault (EvCursor c) tr = Some e ->
    with_ self body tr = (Raises e, tr ++ [EvCursor c]).
Proof.
  intros D self A body tr e c Hfault.
  rewrite with_unfold, wrapper_enter. fold c. rewrite Hfault. reflexivity.
Qed.

Lemma enter_failure_skips_exit_witness :
  let D : Driver := fun ev _ =>
    match ev with
    | EvCursor _ => Some (Error "ProgrammingError" "closed database")
    | _ => None
    end in
  with_ (D := D)
    (Embedded (SQLiteCursor.mk (mkConnection 0 sqlite3 "etl.db" module_dict_row)))
    (fun _ => (["SELECT 1"], Returns tt))
    [EvConnect sqlite3 "etl.db" default_row_factory]
  = (Raises (Error "ProgrammingError" "closed database"),
     [EvConnect sqlite3 "etl.db" default_row_factory] ++ [EvCursor 0]).
Proof.
  intros D.
  apply (enter_failure_skips_exit D
           (Embedded (SQLiteCursor.mk (mkConnection 0 sqlite3 "etl.db" module_dict_row)))
           unit).
  reflexivity.
Defined.

(** The calls of a scope, whatever the driver does: the cursor call, the
    statements of the block, then at most the commit or the rollback that
    the end of the block asks for, then at most the close. *)
Lemma scope_events_shape {D : Driver} {A : Type} (self : wrapper)
    (body : block A) (tr : list event) :
  let c := conn_id (cm_connection self) in
  let cursor := new_cursor (cm_connection self) in
  let settle :=
    match (body cursor).2 with
    | Returns _ => EvCommit c
    | Raises e => if exc_truth (exn_class e) then EvRollback c else EvCommit c
    end in
  let evs := events_since tr (with_ self body tr).2 in
  evs = [EvCursor c]
  \/ evs = [EvCursor c] ++ (EvExecute c <$> (body cursor).1) ++ [settle]
  \/ evs = [EvCursor c] ++ (EvExecute c <$> (body cursor).1)
           ++ [settle; EvClose c].
Proof.
  intros c cursor settle evs. subst evs.
  rewrite with_unfold, wrapper_enter. fold c. fold cursor.
  destruct (driver_fault (EvCursor c) tr).
  { left. cbn [snd]. apply events_since_app. }
  right. rewrite leave_unfold. unfold run_block. cbn [fst snd].
  cbn [cursor_connection new_cursor cursor]. fold c. fold cursor.
  unfold settle. destruct ((body cursor).2) as [a|e].
  - rewrite wrapper_exit_clean. cbn zeta. fold c.
    destruct (driver_fault (EvCommit c) _).
    + left. cbn [snd]. rewrite <- !app_assoc. apply events_since_app.
    + right. destruct (driver_fault (EvClose c) _); cbn [snd];
        rewrite <- !app_assoc; apply events_since_app.
  - rewrite wrapper_exit. cbn zeta. cbn [truthy_class]. fold c.
    destruct (driver_fault _ _).
    + left. cbn [snd]. rewrite <- !app_assoc. apply events_since_app.
    + right. destruct (driver_fault (EvClose c) _) as [e'|]; cbn [snd].
      * rewrite <- !app_assoc. apply events_since_app.
      * destruct (truthy PyNone); cbn [snd]; rewrite <- !app_assoc;
          apply events_since_app.
Qed.

(** X15: whatever the driver does and however the block ends, a scope makes
    no connect call, closes its connection at most once, and never both
    commits and rolls back; it does not roll back when the block returned,
    does not commit when the block raised an error whose class tests true,
    and does not roll back when the class of the error tests false. *)
Theorem scope_never_commits_and_rolls_back :
  forall (D : Driver) (self : wrapper) (A : Type) (body : block A)
         (tr : list event),
    let c := conn_id (cm_connection self) in
    let evs := events_since tr (with_ self body tr).2 in
    connects evs = []
    /\ issued (EvClose c) evs <= 1
    /\ issued (EvCommit c) evs + issued (EvRollback c) evs <= 1
    /\ match (body (new_cursor (cm_connection self))).2 with
       | Returns _ => issued (EvRollback c) evs = 0
       | Raises e =>
           if exc_truth (exn_class e) then issued (EvCommit c) evs = 0
           else issued (EvRollback c) evs = 0
       end.
Proof.
  intros D self A body tr c evs.
  pose proof (scope_events_shape self body tr) as Hshape.
  cbn zeta in Hshape. fold c in Hshape. fold evs in Hshape.
  assert (Hone : forall x y : event, x <> y -> issued x [y] = 0).
  { intros x y Hxy. unfold issued. rewrite filter_cons_False by congruence.
    reflexivity. }
  assert (Hsame : forall x : event, issued x [x] = 1).
  { intros x. unfold issued. rewrite filter_cons_True by reflexivity.
    reflexivity. }
  destruct ((body (new_cursor (cm_connection self))).2) as [a|e];
    [|destruct (exc_truth (exn_class e))];
    destruct Hshape as [-> | [-> | ->]];
    try (rewrite connects_scope_tail, !issued_scope_tail by discriminate);
    try change [?x; ?y] with ([x] ++ [y]);
    rewrite ?issued_app, ?Hsame, ?Hone by discriminate;
    repeat split; try reflexivity; try discriminate; try lia.
Qed.



(** ** More on the extraction patterns *)

(** A text is a word, possibly empty, followed by a text that does not
    start with a word character. *)
Lemma word_split {U : UnicodeData} (n : nat) (t : string) :
  String.length t <= n ->
  exists w r, t = w +:+ r /\ word w = true /\ word_ends r = true.
Proof.
  revert t. induction n as [|n IH]; intros t Hn.
  { destruct t; [|simpl in Hn; lia]. exists EmptyString, EmptyString.
    repeat split. }
  destruct (match_word_char t) as [t'|] eqn:Hm.
  - pose proof (match_word_char_shorter t t' Hm) as Hlt.
    destruct (match_word_char_split t t' Hm) as (ch & Hch & -> & Hall).
    destruct (IH t') as (w & r & -> & Hw & Hr); [lia|].
    exists (ch +:+ w), r. split; [symmetry; apply append_assoc|].
    split; [|exact Hr]. rewrite (word_step _ w (Hall w)). exact Hw.
  - exists EmptyString, t. split; [reflexivity|]. split; [reflexivity|].
    unfold word_ends. rewrite Hm. reflexivity.
Qed.

(** X17: a match of the SQLite pattern at the start of a text is always a
    match of a marker: the text starts with a colon and a non-empty word,
    in Python's sense of [\w] on text, the match is the colon with the
    longest such word, and the group is that word. *)
Theorem sqlite_pattern_matches_only_markers :
  forall (U : UnicodeData) (s : string) (m : Match),
    re_match SQLITE_VALUES_FORMAT s = Some (Some m) ->
    exists ident rest : string,
      s = ":" +:+ ident +:+ rest
      /\ ident <> EmptyString
      /\ word ident = true
      /\ word_ends rest = true
      /\ m = mkMatch (":" +:+ ident) [Some ident].
Proof.
  intros U s m. destruct s as [|c t].
  { unfold re_match. rewrite SQLITE_VALUES_FORMAT_compiled.
    cbn [regex_matcher]. discriminate. }
  destruct (Ascii.eqb_spec c ":") as [->|Hc].
  2:{ unfold re_match. rewrite SQLITE_VALUES_FORMAT_compiled.
      cbn [regex_matcher]. apply Ascii.eqb_neq in Hc. rewrite Hc.
      discriminate. }
  destruct (word_split (String.length t) t (le_n _)) as (w & r & -> & Hw & He).
  destruct w as [|c' w].
  - change (EmptyString +:+ r) with r.
    unfold re_match. rewrite SQLITE_VALUES_FORMAT_compiled.
    change (regex_matcher
              (Cat (Chr ":") (Cat (Group 1 (Cat (Plus WordChar) Eps)) Eps))
              (String ":" r) [] (fun s' cs => Some (s', cs)))
      with (plus_loop (regex_matcher WordChar) (String.length r) r []
              (fun s' cs' =>
                 Some (s', (1, substring 0 (String.length r - String.length s')
                                  r) :: cs'))).
    rewrite plus_word_stops by exact He. discriminate.
  - intros Hm. exists (String c' w), r.
    assert (Hne : String c' w <> EmptyString) by discriminate.
    pose proof (Hrun := sqlite_pattern_run (String c' w) r Hne Hw He).
    unfold re_match in Hm. rewrite SQLITE_VALUES_FORMAT_compiled in Hm.
    rewrite Hrun in Hm.
    change (String ":" (String c' w +:+ r))
      with ((":" +:+ String c' w) +:+ r) in Hm.
    rewrite substring_prefix in Hm. injection Hm as <-.
    repeat split; assumption.
Qed.

Lemma sqlite_pattern_matches_only_markers_witness :
  exists ident rest : string,
    ":café, :age" = ":" +:+ ident +:+ rest
    /\ ident <> EmptyString
    /\ word (U := latin1_letters) ident = true
    /\ word_ends (U := latin1_letters) rest = true
    /\ mkMatch ":café" [Some "café"] = mkMatch (":" +:+ ident) [Some ident].
Proof.
  apply (sqlite_pattern_matches_only_markers latin1_letters ":café, :age").
  reflexivity.
Defined.

(** What the Postgres pattern does after [%(]: [\w+] on the text [t] that
    follows, then the rest of the pattern. *)
Lemma postgres_pattern_after_paren {U : UnicodeData} (t : string) :
  regex_matcher
    (Cat (Chr "%") (Cat (Chr "(") (Cat (Group 1 (Cat (Plus WordChar) Eps))
       (Cat (Chr ")") (Cat (Chr "s") Eps)))))
    (String "%" (String "(" t)) [] (fun s' cs => Some (s', cs))
  = plus_loop (regex_matcher WordChar) (String.length t) t []
      (fun s' cs' =>
         regex_matcher (Cat (Chr ")") (Cat (Chr "s") Eps)) s'
           ((1, substring 0 (String.length t - String.length s') t) :: cs')
           (fun s'' cs'' => Some (s'', cs''))).
Proof. reflexivity. Qed.

(** The end of the Postgres pattern matches exactly a text that starts
    with [)s]. *)
Lemma postgres_pattern_end {U : UnicodeData} (s : string) (cs : captures)
    (x : string * captures) :
  regex_matcher (Cat (Chr ")") (Cat (Chr "s") Eps)) s cs
    (fun s'' cs'' => Some (s'', cs'')) = Some x ->
  exists rest, s = ")s" +:+ rest.
Proof.
  destruct s as [|d1 [|d2 rest]]; cbn [regex_matcher]; try discriminate.
  - destruct (Ascii.eqb d1 ")"); discriminate.
  - destruct (Ascii.eqb_spec d1 ")") as [->|]; [|discriminate].
    destruct (Ascii.eqb_spec d2 "s") as [->|]; [|discriminate].
    intros _. exists rest. reflexivity.
Qed.

(** It does not match a text that starts with a word character. *)
Lemma postgres_pattern_end_no_word {U : UnicodeData} (s s' : string)
    (cs : captures) :
  match_word_char s = Some s' ->
  regex_matcher (Cat (Chr ")") (Cat (Chr "s") Eps)) s cs
    (fun s'' cs'' => Some (s'', cs'')) = None.
Proof.
  intros Hm. destruct s as [|d1 s1]; [reflexivity|]. cbn [regex_matcher].
  destruct (Ascii.eqb_spec d1 ")") as [->|]; [|reflexivity].
  pose proof (word_ends_paren s1) as He. unfold word_ends in He.
  rewrite Hm in He. discriminate.
Qed.

(** X18: a match of the Postgres pattern at the start of a text is always
    a match of a marker: the text starts with [%(], a non-empty word, in
    Python's sense of [\w] on text, and [)s]; the match is that marker and
    the group is the word. *)
Theorem postgres_pattern_matches_only_markers :
  forall (U : UnicodeData) (s : string) (m : Match),
    re_match POSTGRES_VALUES_FORMAT s = Some (Some m) ->
    exists ident rest : string,
      s = "%(" +:+ ident +:+ ")s" +:+ rest
      /\ ident <> EmptyString
      /\ word ident = true
      /\ m = mkMatch ("%(" +:+ ident +:+ ")s") [Some ident].
Proof.
  intros U s m Hm.
  assert (Hshape : exists ident rest,
             s = "%(" +:+ ident +:+ ")s" +:+ rest
             /\ ident <> EmptyString /\ word ident = true).
  { unfold re_match in Hm. rewrite POSTGRES_VALUES_FORMAT_compiled in Hm.
    destruct s as [|c1 [|c2 t]].
    { cbn [regex_matcher] in Hm. discriminate. }
    { cbn [regex_matcher] in Hm. destruct (Ascii.eqb c1 "%"); discriminate. }
    destruct (Ascii.eqb_spec c1 "%") as [->|Hc1].
    2:{ cbn [regex_matcher] in Hm. apply Ascii.eqb_neq in Hc1.
        rewrite Hc1 in Hm. discriminate. }
    destruct (Ascii.eqb_spec c2 "(") as [->|Hc2].
    2:{ cbn [regex_matcher Ascii.eqb Bool.eqb] in Hm.
        apply Ascii.eqb_neq in Hc2. rewrite Hc2 in Hm. discriminate. }
    rewrite postgres_pattern_after_paren in Hm.
    destruct (word_split (String.length t) t (le_n _))
      as (w & r & Ht & Hw & He).
    destruct w as [|c' w].
    - change (EmptyString +:+ r) with r in Ht. subst r.
      rewrite plus_word_stops in Hm by exact He. discriminate.
    - rewrite Ht in Hm at 2.
      rewrite (plus_word_exact (String.length (String c' w))) in Hm;
        [| lia | discriminate | exact Hw | exact He
         | rewrite Ht, length_append; lia
         | right; intros s0 s0' Hs0;
           apply (postgres_pattern_end_no_word s0 s0'); exact Hs0].
      destruct (regex_matcher _ r _ _) as [x|] eqn:Hend; [|discriminate].
      apply postgres_pattern_end in Hend as [rest Hrest].
      exists (String c' w), rest. repeat split; [|discriminate|exact Hw].
      rewrite Ht, Hrest. reflexivity. }
  destruct Hshape as (ident & rest & -> & Hne & Hw).
  exists ident, rest. repeat split; try assumption.
  unfold re_match in Hm. rewrite POSTGRES_VALUES_FORMAT_compiled in Hm.
  change ("%(" +:+ ident +:+ ")s" +:+ rest)
    with (String "%" (String "(" (ident +:+ ")s" +:+ rest))) in Hm.
  rewrite postgres_pattern_run in Hm by assumption.
  replace (String "%" (String "(" (ident +:+ ")s" +:+ rest)))
    with (("%(" +:+ ident +:+ ")s") +:+ rest) in Hm.
  - rewrite substring_prefix in Hm. injection Hm as <-. reflexivity.
  - change (String "%" (String "(" ((ident +:+ ")s") +:+ rest))
            = String "%" (String "(" (ident +:+ ")s" +:+ rest))).
    rewrite append_assoc. reflexivity.
Qed.

Lemma postgres_pattern_matches_only_markers_witness :
  exists ident rest : string,
    "%(naïve)s, %(age)s" = "%(" +:+ ident +:+ ")s" +:+ rest
    /\ ident <> EmptyString
    /\ word (U := latin1_letters) ident = true
    /\ mkMatch "%(naïve)s" [Some "naïve"]
       = mkMatch ("%(" +:+ ident +:+ ")s") [Some ident].
Proof.
  apply (postgres_pattern_matches_only_markers latin1_letters
           "%(naïve)s, %(age)s").
  reflexivity.
Defined.
